(** * Virtual try-on backend: the request/result lifecycle of [server.py]

    A shallow embedding of the FastAPI handlers of [backend/server.py]
    ([generate_tryon], [get_tryon_result], [get_tryon_image_base64],
    [get_all_tryons], the status-check handlers) together with the helper
    [generate_virtual_tryon], and the properties of the record lifecycle
    proved about them.

    Conventions of the embedding.
    - A Python [str] is a [string]; its characters are read as the code
      points 0..255.
    - A Python [dict] is a [gmap string value]; the Mongo documents and the
      JSON bodies returned by the handlers are such dictionaries.
    - A Mongo collection is the list of its documents in natural
      (insertion) order.  The [_id] key that the driver adds to an inserted
      document is left out: no handler reads it and pydantic ignores it.
      Driver calls are taken to succeed (a store outage is outside the
      model).
    - What the environment chooses (the uuid4 and utcnow of a default
      factory, the answer of the FAL.AI job, the image decoder) is an
      explicit argument.
    - The handlers run one at a time on the store. *)

From Stdlib Require Import ZArith QArith_base Ascii String List Sorted Permutation Lia.
From stdpp Require Import gmap strings list fin_maps sorting.

Local Open Scope string_scope.
Local Open Scope Z_scope.
Local Open Scope list_scope.
Local Open Scope stdpp_scope.

(** * Part I: the embedding *)

(** ** Python string operations used by the handlers *)

Module PyStr.

(** [str.isspace] on one character, for the code points 0..255:
    TAB, LF, VT, FF, CR, the separators FS, GS, RS, US, the space,
    NEL (0x85) and the no-break space (0xA0). *)
Definition isspace (a : ascii) : bool :=
  let n := N_of_ascii a in
  ((9 <=? n) && (n <=? 13) || (28 <=? n) && (n <=? 32)
   || (n =? 133) || (n =? 160))%N.

(** [s.lstrip()] *)
Fixpoint lstrip (s : string) : string :=
  match s with
  | EmptyString => EmptyString
  | String a s' => if isspace a then lstrip s' else s
  end.

(** [s.rstrip()] *)
Fixpoint rstrip (s : string) : string :=
  match s with
  | EmptyString => EmptyString
  | String a s' =>
      match rstrip s' with
      | EmptyString => if isspace a then EmptyString else String a EmptyString
      | r => String a r
      end
  end.

(** [s.strip()] *)
Definition strip (s : string) : string := rstrip (lstrip s).

(** every character of [s] is white space *)
Fixpoint all_space (s : string) : bool :=
  match s with
  | EmptyString => true
  | String a s' => isspace a && all_space s'
  end.

(** [s.startswith(p)] *)
Definition startswith (p s : string) : bool := String.prefix p s.

(** [s.split(c)] for a one-character separator: the pieces between the
    occurrences of [c], in order (always at least one piece). *)
Fixpoint split (c : ascii) (s : string) : list string :=
  match s with
  | EmptyString => [EmptyString]
  | String a s' =>
      if Ascii.eqb a c then EmptyString :: split c s'
      else match split c s' with
           | [] => [String a EmptyString]
           | p :: ps => String a p :: ps
           end
  end.

(** truth value of a string: [bool(s)] *)
Definition truthy (s : string) : bool :=
  match s with EmptyString => false | _ => true end.

End PyStr.

(** ** Values, documents and HTTP results *)

(** The Python values that occur in a stored document or in a JSON body. *)
Inductive value : Type :=
| VNone
| VBool (b : bool)
| VStr (s : string)
| VDatetime (t : Z)
| VDict (m : gmap string string).

Global Instance value_eq_dec : EqDecision value.
Proof. solve_decision. Defined.

(** A Python [dict] with string keys: a Mongo document, a JSON body. *)
Abbreviation doc := (gmap string value).

(** [raise HTTPException(status_code=..., detail=...)] *)
Record HTTPException : Type := mkHTTPException
  { status_code : Z; detail : string }.

(** What a handler gives back: a value, or a raised [HTTPException]. *)
Inductive result (A : Type) : Type :=
| Return (a : A)
| Raise (e : HTTPException).
Arguments Return {A} a.
Arguments Raise {A} e.

(** What the default factories of one model construction produce:
    [str(uuid.uuid4())] and [datetime.utcnow()]. *)
Record Factory : Type := mkFactory { uuid4 : string; utcnow : Z }.

(** Reading the keyword arguments of a pydantic constructor. A value of
    another type than the declared one is a validation error ([None]
    here); pydantic's coercions between types are not modelled. *)
Module Field.

(** a required [str] field *)
Definition str (o : option value) : option string :=
  match o with Some (VStr s) => Some s | _ => None end.

(** a [str] field with a default *)
Definition str_or (d : string) (o : option value) : option string :=
  match o with None => Some d | Some (VStr s) => Some s | _ => None end.

(** an [Optional[str] = None] field *)
Definition opt_str (o : option value) : option (option string) :=
  match o with
  | None | Some VNone => Some None
  | Some (VStr s) => Some (Some s)
  | _ => None
  end.

(** a required [Dict] field *)
Definition dict (o : option value) : option (gmap string string) :=
  match o with Some (VDict m) => Some m | _ => None end.

(** a [datetime] field with a default *)
Definition datetime_or (d : Z) (o : option value) : option Z :=
  match o with None => Some d | Some (VDatetime t) => Some t | _ => None end.

(** the stored form of an [Optional[str]] *)
Definition of_opt (o : option string) : value :=
  match o with Some s => VStr s | None => VNone end.

End Field.

(** ** The pydantic models *)

Module Measurements.
Record t : Type := make
  { height : string; weight : string; chest : string;
    waist : string; hips : string }.

(** [m.dict()] *)
Definition dict (m : t) : gmap string string :=
  <["height" := height m]> (<["weight" := weight m]> (<["chest" := chest m]>
    (<["waist" := waist m]> (<["hips" := hips m]> ∅)))).
End Measurements.

Module TryOnRequest.
Record t : Type := make
  { name : string;
    user_image : string;
    clothing_image : string;
    measurements : Measurements.t;
    style : string }.
End TryOnRequest.

Module TryOnResult.
Record t : Type := make
  { id : string;
    name : string;
    user_image_url : option string;
    clothing_image_url : option string;
    tryon_image : option string;
    measurements : gmap string string;
    style : string;
    feedback : option string;
    created_at : Z;
    status : string }.

(** [TryOnResult(name=..., measurements=..., style=..., status=...)]:
    the fields not given take their defaults. *)
Definition create (f : Factory) (name : string)
    (measurements : gmap string string) (style status : string) : t :=
  {| id := uuid4 f; name := name;
     user_image_url := None; clothing_image_url := None;
     tryon_image := None; measurements := measurements; style := style;
     feedback := None; created_at := utcnow f; status := status |}.

(** the attribute assignments [r.tryon_image = v], [r.feedback = v],
    [r.status = v] *)
Definition set_tryon_image (v : option string) (r : t) : t :=
  {| id := id r; name := name r; user_image_url := user_image_url r;
     clothing_image_url := clothing_image_url r; tryon_image := v;
     measurements := measurements r; style := style r;
     feedback := feedback r; created_at := created_at r;
     status := status r |}.
Definition set_feedback (v : option string) (r : t) : t :=
  {| id := id r; name := name r; user_image_url := user_image_url r;
     clothing_image_url := clothing_image_url r;
     tryon_image := tryon_image r;
     measurements := measurements r; style := style r;
     feedback := v; created_at := created_at r; status := status r |}.
Definition set_status (v : string) (r : t) : t :=
  {| id := id r; name := name r; user_image_url := user_image_url r;
     clothing_image_url := clothing_image_url r;
     tryon_image := tryon_image r;
     measurements := measurements r; style := style r;
     feedback := feedback r; created_at := created_at r; status := v |}.

(** [r.dict()] *)
Definition dict (r : t) : doc :=
  <["id" := VStr (id r)]> (<["name" := VStr (name r)]>
  (<["user_image_url" := Field.of_opt (user_image_url r)]>
  (<["clothing_image_url" := Field.of_opt (clothing_image_url r)]>
  (<["tryon_image" := Field.of_opt (tryon_image r)]>
  (<["measurements" := VDict (measurements r)]>
  (<["style" := VStr (style r)]>
  (<["feedback" := Field.of_opt (feedback r)]>
  (<["created_at" := VDatetime (created_at r)]>
  (<["status" := VStr (status r)]> ∅))))))))).

(** [TryOnResult] built from the keywords of [d]: keys that are not
    fields are ignored, absent fields take their defaults ([f] gives
    what the default factories of [id] and [created_at] produce),
    [None] is a validation error. *)
Definition parse (f : Factory) (d : doc) : option t :=
  i ← Field.str_or (uuid4 f) (d !! "id");
  n ← Field.str (d !! "name");
  u ← Field.opt_str (d !! "user_image_url");
  c ← Field.opt_str (d !! "clothing_image_url");
  g ← Field.opt_str (d !! "tryon_image");
  m ← Field.dict (d !! "measurements");
  s ← Field.str (d !! "style");
  b ← Field.opt_str (d !! "feedback");
  a ← Field.datetime_or (utcnow f) (d !! "created_at");
  z ← Field.str_or "processing" (d !! "status");
  Some {| id := i; name := n; user_image_url := u;
          clothing_image_url := c; tryon_image := g; measurements := m;
          style := s; feedback := b; created_at := a; status := z |}.
End TryOnResult.

Module StatusCheck.
Record t : Type := make
  { id : string; client_name : string; timestamp : Z }.

(** [StatusCheck] built from the keywords of a [StatusCheckCreate] *)
Definition create (f : Factory) (client_name : string) : t :=
  {| id := uuid4 f; client_name := client_name; timestamp := utcnow f |}.

Definition dict (r : t) : doc :=
  <["id" := VStr (id r)]> (<["client_name" := VStr (client_name r)]>
  (<["timestamp" := VDatetime (timestamp r)]> ∅)).

Definition parse (f : Factory) (d : doc) : option t :=
  i ← Field.str_or (uuid4 f) (d !! "id");
  n ← Field.str (d !! "client_name");
  a ← Field.datetime_or (utcnow f) (d !! "timestamp");
  Some {| id := i; client_name := n; timestamp := a |}.
End StatusCheck.

(** ** The Mongo collections *)

Module Mongo.

(** the filter [{"id": x}] *)
Definition matches (x : string) (d : doc) : bool :=
  bool_decide (d !! "id" = Some (VStr x)).

(** [insert_one(d)] *)
Definition insert_one (d : doc) (c : list doc) : list doc := c ++ [d].

(** [find_one({"id": x})]: the first matching document, if any *)
Definition find_one (x : string) (c : list doc) : option doc :=
  List.find (matches x) c.

(** the update [{"$set": fields}] on one document: the keys of
    [fields] are written, the other keys are kept *)
Definition set_fields (fields d : doc) : doc := fields ∪ d.

(** [update_one({"id": x}, {"$set": fields})]: the first matching
    document is updated; no document matching, nothing is written *)
Fixpoint update_one (x : string) (fields : doc) (c : list doc) : list doc :=
  match c with
  | [] => []
  | d :: c' =>
      if matches x d then set_fields fields d :: c'
      else d :: update_one x fields c'
  end.

(** The sort key of [sort("created_at", -1)]. Every value that is not
    a date sorts below every date; the order among such values is not
    modelled (they compare as equal). *)
Definition date_key (d : doc) : option Z :=
  match d !! "created_at" with Some (VDatetime t) => Some t | _ => None end.

Definition key_le (a b : option Z) : Prop :=
  match a, b with
  | None, _ => True
  | Some _, None => False
  | Some x, Some y => x <= y
  end.

(** [d1] may come before [d2] in descending order of [created_at] *)
Definition newer_first (d1 d2 : doc) : Prop :=
  key_le (date_key d2) (date_key d1).

Global Instance key_le_dec a b : Decision (key_le a b).
Proof. destruct a, b; simpl; apply _. Defined.

Global Instance newer_first_dec d1 d2 : Decision (newer_first d1 d2).
Proof. unfold newer_first. apply _. Defined.

(** [find().sort("created_at", -1)] *)
Definition sort_created_at_desc (c : list doc) : list doc :=
  merge_sort newer_first c.

(** [cursor.to_list(n)] *)
Definition to_list (n : nat) (c : list doc) : list doc := take n c.

End Mongo.

(** Truth value of a Python value, as tested by [if not v]. *)
Definition truthy (v : value) : bool :=
  match v with
  | VNone => false
  | VBool b => b
  | VStr s => PyStr.truthy s
  | VDatetime _ => true
  | VDict m => negb (bool_decide (m = ∅))
  end.

(** [not d.get(k)] *)
Definition not_get (k : string) (d : doc) : bool :=
  match d !! k with None => true | Some v => negb (truthy v) end.

(** ** The FAL.AI client *)

(** The [arguments] of [fal_client.submit_async]. *)
Record fal_arguments : Type := mkArguments
  { prompt : string;
    image_size : string;
    num_inference_steps : Z;
    guidance_scale : Q;
    num_images : Z }.

(** The value that [handler.get()] returns: [None], or a dictionary
    whose key ['images'], when present, holds a list of dictionaries
    (the generated images, each with its ['url'] when present). Other
    keys are not read. *)
Inductive fal_result : Type :=
| FalNone
| FalDict (images : option (list (gmap string string))).

(** One submitted job from submission to answer: [submit_async] or
    [handler.get()] raises an exception [e] with [str(e) = msg], or the
    answer comes back. *)
Inductive fal_outcome : Type :=
| FalRaises (msg : string)
| FalReturns (r : fal_result).

(** The environment of one call of a handler: the outputs of the
    default factories and the behaviour of the FAL.AI service. *)
Record Env : Type := mkEnv
  { factory : Factory;
    fal_client : string -> fal_arguments -> fal_outcome }.

(** ** The state of the service *)

Record Db : Type := mkDb
  { tryon_results : list doc;
    status_checks : list doc }.

(** The database, the journal of the database after each write so far
    (oldest first), and the jobs submitted to FAL.AI so far. *)
Record World : Type := mkWorld
  { db : Db;
    journal : list Db;
    fal_log : list (string * fal_arguments) }.

Definition write (d : Db) (w : World) : World :=
  {| db := d; journal := journal w ++ [d]; fal_log := fal_log w |}.

Definition submit_async (app : string) (a : fal_arguments) (w : World) : World :=
  {| db := db w; journal := journal w; fal_log := fal_log w ++ [(app, a)] |}.

(** [await db.tryon_results.insert_one(d)] *)
Definition tryon_insert_one (d : doc) (w : World) : World :=
  write {| tryon_results := Mongo.insert_one d (tryon_results (db w));
           status_checks := status_checks (db w) |} w.

(** [await db.tryon_results.update_one({"id": x}, {"$set": fields})] *)
Definition tryon_update_one (x : string) (fields : doc) (w : World) : World :=
  write {| tryon_results := Mongo.update_one x fields (tryon_results (db w));
           status_checks := status_checks (db w) |} w.

(** [await db.status_checks.insert_one(d)] *)
Definition status_insert_one (d : doc) (w : World) : World :=
  write {| tryon_results := tryon_results (db w);
           status_checks := Mongo.insert_one d (status_checks (db w)) |} w.

(** ** The handlers *)

(** What [generate_virtual_tryon] returns: the dictionary
    [{'success': True, 'tryon_image': .., 'feedback': ..}] or
    [{'success': False, 'error': ..}]. *)
Inductive generation_result : Type :=
| GenSuccess (tryon_image feedback : string)
| GenFailure (error : string).

Definition nl : string := String (ascii_of_nat 10) EmptyString.

(** The f-string [prompt] of [generate_virtual_tryon]. *)
Definition tryon_prompt (measurements : Measurements.t) (style : string) : string :=
  nl +:+ "        Create a photorealistic virtual try-on image showing a person wearing the provided clothing item. "
  +:+ nl +:+ "        The person should match these measurements: height "
  +:+ Measurements.height measurements +:+ "cm, weight "
  +:+ Measurements.weight measurements +:+ "kg, "
  +:+ nl +:+ "        chest " +:+ Measurements.chest measurements
  +:+ "cm, waist " +:+ Measurements.waist measurements
  +:+ "cm, hips " +:+ Measurements.hips measurements +:+ "cm."
  +:+ nl +:+ "        Style preference: " +:+ style +:+ ". "
  +:+ nl +:+ "        The clothing should fit naturally and realistically on the person's body. "
  +:+ nl +:+ "        Maintain the original person's appearance and facial features while showing them wearing the new outfit."
  +:+ nl +:+ "        The final image should look natural, well-lit, and professional."
  +:+ nl +:+ "        ".

(** [GET /api/] *)
Definition root : doc := {[ "message" := VStr "Virtual Try-On API is running!" ]}.

Section Service.

(** PIL images and the decoder
    [Image.open(io.BytesIO(base64.b64decode(s)))]; [None] when either
    call raises. *)
Variable image : Type.
Variable open_image : string -> option image.

(** [base64_to_pil]: a payload starting with [data:image] is cut down
    to what stands between its first and second comma (no comma: the
    index error is caught and the result is [None]). *)
Definition base64_to_pil (base64_str : string) : option image :=
  if PyStr.startswith "data:image" base64_str then
    match PyStr.split "," base64_str !! 1%nat with
    | Some payload => open_image payload
    | None => None
    end
  else open_image base64_str.

(** [generate_virtual_tryon]: every exception raised in its body is
    caught and turned into a failure dictionary carrying [str(e)]. *)
Definition generate_virtual_tryon (e : Env)
    (user_image_b64 clothing_image_b64 : string)
    (measurements : Measurements.t) (style name : string)
    (w : World) : World * generation_result :=
  let user_image := base64_to_pil user_image_b64 in
  let clothing_image := base64_to_pil clothing_image_b64 in
  if negb (bool_decide (is_Some user_image))
     || negb (bool_decide (is_Some clothing_image))
  then (w, GenFailure "Failed to process uploaded images")
  else
    let arguments :=
      {| prompt := tryon_prompt measurements style;
         image_size := "portrait";
         num_inference_steps := 28;
         guidance_scale := (7 # 2)%Q;
         num_images := 1 |} in
    let w := submit_async "fal-ai/flux/dev" arguments w in
    match fal_client e "fal-ai/flux/dev" arguments with
    | FalRaises msg => (w, GenFailure msg)
    | FalReturns (FalDict (Some (first :: _))) =>
        match first !! "url" with
        | Some generated_image_url =>
            (w, GenSuccess generated_image_url
                  ("Virtual try-on generated successfully for "
                   +:+ style +:+ " style!"))
        | None => (w, GenFailure "'url'")
        end
    | FalReturns _ => (w, GenFailure "No images generated by FAL.AI")
    end.

(** [POST /api/tryon/generate]. Every [HTTPException] is raised on;
    the handler of the other exceptions (status 500, "Internal server
    error") is not reached, since the driver calls succeed and
    [generate_virtual_tryon] catches its own exceptions. *)
Definition generate_tryon (e : Env) (request : TryOnRequest.t)
    (w : World) : World * result doc :=
  if negb (PyStr.truthy (TryOnRequest.user_image request)) then
    (w, Raise (mkHTTPException 400 "User image is required"))
  else if negb (PyStr.truthy (TryOnRequest.clothing_image request)) then
    (w, Raise (mkHTTPException 400 "Clothing image is required"))
  else if negb (PyStr.truthy (PyStr.strip (TryOnRequest.name request))) then
    (w, Raise (mkHTTPException 400 "Name is required"))
  else
    let tryon_result :=
      TryOnResult.create (factory e) (TryOnRequest.name request)
        (Measurements.dict (TryOnRequest.measurements request))
        (TryOnRequest.style request) "processing" in
    let w := tryon_insert_one (TryOnResult.dict tryon_result) w in
    let '(w, generation_result) :=
      generate_virtual_tryon e
        (TryOnRequest.user_image request)
        (TryOnRequest.clothing_image request)
        (TryOnRequest.measurements request)
        (TryOnRequest.style request)
        (TryOnRequest.name request) w in
    match generation_result with
    | GenSuccess tryon_image feedback =>
        let tryon_result :=
          TryOnResult.set_status "completed"
            (TryOnResult.set_feedback (Some feedback)
               (TryOnResult.set_tryon_image (Some tryon_image)
                  tryon_result)) in
        let w := tryon_update_one (TryOnResult.id tryon_result)
                   (TryOnResult.dict tryon_result) w in
        (w, Return
              (<["success" := VBool true]>
               (<["id" := VStr (TryOnResult.id tryon_result)]>
               (<["tryon_image" :=
                    Field.of_opt (TryOnResult.tryon_image tryon_result)]>
               (<["feedback" :=
                    Field.of_opt (TryOnResult.feedback tryon_result)]>
               (<["status" := VStr (TryOnResult.status tryon_result)]>
                  ∅))))))
    | GenFailure error =>
        let tryon_result := TryOnResult.set_status "failed" tryon_result in
        let w := tryon_update_one (TryOnResult.id tryon_result)
                   {[ "status" := VStr "failed" ]} w in
        (w, Raise (mkHTTPException 500
                     ("Failed to generate try-on: " +:+ error)))
    end.

(** [GET /api/tryon/{tryon_id}]. A found document is never the empty
    dictionary (it has the key [id]), so [not result] is the test for
    [None]; a pydantic validation error is caught by the handler. *)
Definition get_tryon_result (f : Factory) (tryon_id : string)
    (w : World) : result TryOnResult.t :=
  match Mongo.find_one tryon_id (tryon_results (db w)) with
  | None => Raise (mkHTTPException 404 "Try-on result not found")
  | Some result =>
      match TryOnResult.parse f result with
      | Some r => Return r
      | None => Raise (mkHTTPException 500 "Internal server error")
      end
  end.

(** [GET /api/tryon/{tryon_id}/base64] *)
Definition get_tryon_image_base64 (tryon_id : string)
    (w : World) : result doc :=
  match Mongo.find_one tryon_id (tryon_results (db w)) with
  | None => Raise (mkHTTPException 404 "Try-on result not found")
  | Some result =>
      if not_get "tryon_image" result then
        Raise (mkHTTPException 404 "Try-on image not available")
      else
        match result !! "tryon_image" with
        | Some image_base64 =>
            Return (<["success" := VBool true]>
                    (<["image_base64" := image_base64]>
                    (<["id" := VStr tryon_id]> ∅)))
        | None => Raise (mkHTTPException 500 "Internal server error")
        end
  end.

(** [[TryOnResult(... result) for result in results]]: the [i]-th
    construction uses the default factories [fs i]. *)
Fixpoint parse_results (fs : nat -> Factory) (i : nat) (results : list doc)
    : option (list TryOnResult.t) :=
  match results with
  | [] => Some []
  | result :: rest =>
      r ← TryOnResult.parse (fs i) result;
      rs ← parse_results fs (S i) rest;
      Some (r :: rs)
  end.

(** [GET /api/tryons] *)
Definition get_all_tryons (fs : nat -> Factory) (w : World)
    : result (list TryOnResult.t) :=
  let results :=
    Mongo.to_list 100
      (Mongo.sort_created_at_desc (tryon_results (db w))) in
  match parse_results fs 0 results with
  | Some rs => Return rs
  | None => Raise (mkHTTPException 500 "Internal server error")
  end.

(** [POST /api/status] *)
Definition create_status_check (f : Factory) (client_name : string)
    (w : World) : World * result StatusCheck.t :=
  let status_obj := StatusCheck.create f client_name in
  let w := status_insert_one (StatusCheck.dict status_obj) w in
  (w, Return status_obj).

Fixpoint parse_status_checks (fs : nat -> Factory) (i : nat)
    (results : list doc) : option (list StatusCheck.t) :=
  match results with
  | [] => Some []
  | result :: rest =>
      r ← StatusCheck.parse (fs i) result;
      rs ← parse_status_checks fs (S i) rest;
      Some (r :: rs)
  end.

(** [GET /api/status]: this handler catches nothing, a validation
    error surfaces as the framework's status 500. *)
Definition get_status_checks (fs : nat -> Factory) (w : World)
    : result (list StatusCheck.t) :=
  match parse_status_checks fs 0
          (Mongo.to_list 1000 (status_checks (db w))) with
  | Some rs => Return rs
  | None => Raise (mkHTTPException 500 "Internal Server Error")
  end.

End Service.

(** ** Vocabulary of the properties *)

Arguments base64_to_pil {image} open_image base64_str.
Arguments generate_virtual_tryon {image} open_image e user_image_b64
  clothing_image_b64 measurements style name w.
Arguments generate_tryon {image} open_image e request w.



Definition NotFoundError (e : HTTPException) : Prop :=
  e = mkHTTPException 404 "Try-on result not found".

Definition ArtifactUnavailableError (e : HTTPException) : Prop :=
  e = mkHTTPException 404 "Try-on image not available".

(** The request passes the three presence checks of [generate_tryon]. *)
Definition valid (request : TryOnRequest.t) : bool :=
  PyStr.truthy (TryOnRequest.user_image request)
  && PyStr.truthy (TryOnRequest.clothing_image request)
  && PyStr.truthy (PyStr.strip (TryOnRequest.name request)).

(** The id drawn for the record of a call is not the id of a stored
    record. *)
Definition fresh_id (e : Env) (w : World) : Prop :=
  Mongo.find_one (uuid4 (factory e)) (tryon_results (db w)) = None.

(** The record that [generate_tryon] creates, and the record after the
    assignments of the success branch. *)
Definition pending (e : Env) (request : TryOnRequest.t) : TryOnResult.t :=
  TryOnResult.create (factory e) (TryOnRequest.name request)
    (Measurements.dict (TryOnRequest.measurements request))
    (TryOnRequest.style request) "processing".

Definition completed (e : Env) (request : TryOnRequest.t)
    (tryon_image feedback : string) : TryOnResult.t :=
  TryOnResult.set_status "completed"
    (TryOnResult.set_feedback (Some feedback)
       (TryOnResult.set_tryon_image (Some tryon_image) (pending e request))).

(** The arguments of the job that [generate_virtual_tryon] submits. *)
Definition job_arguments (request : TryOnRequest.t) : fal_arguments :=
  {| prompt := tryon_prompt (TryOnRequest.measurements request)
                 (TryOnRequest.style request);
     image_size := "portrait";
     num_inference_steps := 28;
     guidance_scale := (7 # 2)%Q;
     num_images := 1 |}.

(** The status stored for the id [x]. *)
Definition status_of (x : string) (d : Db) : option value :=
  Mongo.find_one x (tryon_results d) ≫= (.!! "status").

(** The document holds an artifact: its key [tryon_image] is present
    and not [None]. *)
Definition has_artifact (d : doc) : Prop :=
  exists v, d !! "tryon_image" = Some v /\ v <> VNone.

(** The body returned on success. *)
Definition success_body (r : TryOnResult.t) : doc :=
  <["success" := VBool true]>
  (<["id" := VStr (TryOnResult.id r)]>
  (<["tryon_image" := Field.of_opt (TryOnResult.tryon_image r)]>
  (<["feedback" := Field.of_opt (TryOnResult.feedback r)]>
  (<["status" := VStr (TryOnResult.status r)]> ∅)))).

(** ** Runs of the service *)

(** One call of a handler, with what the environment chooses for it. *)
Inductive op : Type :=
| Root
| CreateStatusCheck (f : Factory) (client_name : string)
| GetStatusChecks (fs : nat -> Factory)
| GenerateTryon (e : Env) (request : TryOnRequest.t)
| GetTryonResult (f : Factory) (tryon_id : string)
| GetTryonImageBase64 (tryon_id : string)
| GetAllTryons (fs : nat -> Factory).

Definition init : World :=
  {| db := {| tryon_results := []; status_checks := [] |};
     journal := []; fal_log := [] |}.

(** A record is created with a fresh id. *)
Definition fresh_op (o : op) (w : World) : Prop :=
  match o with
  | GenerateTryon e request => valid request = true -> fresh_id e w
  | _ => True
  end.

(** The three statuses of a record, and the order of its life: absent,
    then [processing], then [completed] or [failed] for good. *)
Definition allowed (a b : option value) : bool :=
  bool_decide (a = b)
  || bool_decide (a = None /\ b = Some (VStr "processing"))
  || bool_decide (a = Some (VStr "processing")
                  /\ (b = Some (VStr "completed") \/ b = Some (VStr "failed"))).

Fixpoint lifecycle (cur : option value) (h : list (option value)) : bool :=
  match h with
  | [] => true
  | s :: h' => allowed cur s && lifecycle s h'
  end.

(** A stored document is the dump of a record that has an artifact
    exactly when it is completed. *)
Definition dumped (d : doc) : Prop :=
  exists r, d = TryOnResult.dict r
            /\ (is_Some (TryOnResult.tryon_image r)
                <-> TryOnResult.status r = "completed").

Definition db_ok (d : Db) : Prop := Forall dumped (tryon_results d).

Section Runs.

Context {image : Type} (open_image : string -> option image).

(** The world after the call: the handlers that read return no new
    world. *)
Definition step (o : op) (w : World) : World :=
  match o with
  | CreateStatusCheck f client_name =>
      (create_status_check f client_name w).1
  | GenerateTryon e request => (generate_tryon open_image e request w).1
  | Root | GetStatusChecks _ | GetTryonResult _ _
  | GetTryonImageBase64 _ | GetAllTryons _ => w
  end.

(** The worlds that the service reaches from the empty database. *)
Inductive reachable : World -> Prop :=
| reachable_init : reachable init
| reachable_step o w :
    reachable w -> fresh_op o w -> reachable (step o w).

End Runs.

(** ** Invariants of the reachable worlds *)

(** The database is the one of the last write. *)
Definition in_sync (w : World) : Prop :=
  db w = default (db init) (last (journal w)).

Definition world_ok (w : World) : Prop :=
  db_ok (db w) /\ Forall db_ok (journal w) /\ in_sync w.

(** ** The claims as the specification words them *)


(** [a] may come before [b] in a newest-first list. *)
Definition newest_first (a b : TryOnResult.t) : Prop :=
  TryOnResult.created_at b <= TryOnResult.created_at a.

(** The returned body is the stored record, as the specification words
    it: it carries every field of the record with the stored value. *)
Definition returns_stored_record (body d : doc) : Prop :=
  forall k,
    k ∈ ["id"; "name"; "measurements"; "style"; "tryon_image"; "feedback";
         "status"; "created_at"] ->
    body !! k = d !! k.

(** ** The image payloads *)

(** A document without the two keys that the default factories fill. *)
Definition scrub (d : doc) : doc := delete "id" (delete "created_at" d).

Definition scrub_db (d : Db) : list doc := scrub <$> tryon_results d.

(** What the answer of the job becomes in [generate_virtual_tryon]. *)
Definition job_result (e : Env) (request : TryOnRequest.t) : generation_result :=
  match fal_client e "fal-ai/flux/dev" (job_arguments request) with
  | FalRaises msg => GenFailure msg
  | FalReturns (FalDict (Some (first :: _))) =>
      match first !! "url" with
      | Some generated_image_url =>
          GenSuccess generated_image_url
            ("Virtual try-on generated successfully for "
             +:+ TryOnRequest.style request +:+ " style!")
      | None => GenFailure "'url'"
      end
  | FalReturns _ => GenFailure "No images generated by FAL.AI"
  end.

(** ** A concrete scenario *)

Module Scenario.

(** A decoder that accepts every non-empty payload. *)
Definition decoder (s : string) : option unit :=
  if PyStr.truthy s then Some () else None.

Definition measurements : Measurements.t :=
  Measurements.make "170" "65" "90" "75" "95".

Definition request : TryOnRequest.t :=
  TryOnRequest.make "Test User" "data:image/png;base64,iVBORw0KGgo="
    "data:image/png;base64,iVBORw0KGgp=" measurements "casual".

(** the same request with other image payloads *)
Definition request' : TryOnRequest.t :=
  TryOnRequest.make "Test User" "/9j/4AAQSkZJRg==" "R0lGODlhAQABAAAAACw="
    measurements "casual".

Definition one_image (url : string) : fal_result :=
  FalDict (Some [ {[ "url" := url ]} ]).

(** the job answers with one image *)
Definition env_ok : Env :=
  mkEnv (mkFactory "3f2c9a1e-0001" 1700000000)
    (fun _ _ => FalReturns (one_image "https://fal.media/files/out.png")).

(** the job answers with an empty result set *)
Definition env_empty : Env :=
  mkEnv (mkFactory "3f2c9a1e-0002" 1700000060)
    (fun _ _ => FalReturns (FalDict (Some []))).


(** the job answers as [env_ok], the factories draw other values *)
Definition env_ok' : Env :=
  mkEnv (mkFactory "3f2c9a1e-0004" 1700000180)
    (fun _ _ => FalReturns (one_image "https://fal.media/files/out.png")).

Definition after_ok : World := (generate_tryon decoder env_ok request init).1.

Definition after_empty : World :=
  (generate_tryon decoder env_empty request after_ok).1.

End Scenario.

(** ** The image helpers *)

(** [c in s] for a character [c] *)
Fixpoint has_char (c : ascii) (s : string) : bool :=
  match s with
  | EmptyString => false
  | String a s' => Ascii.eqb a c || has_char c s'
  end.

Section Codec.

(** PIL images; the PNG encoder followed by the base64 encoder,
    [base64.b64encode(buffered.getvalue()).decode()] after
    [image.save(buffered, format="PNG")] ([None] when either raises);
    and [Image.new('RGB', size, color=color)] ([None] when it raises). *)
Variable image : Type.
Variable png_base64 : image -> option string.
Variable new_rgb : string -> nat * nat -> option image.

(** [pil_to_base64] of [server.py]: the data URL of the PNG encoding,
    [None] when an exception is caught. *)
Definition pil_to_base64 (pil_image : image) : option string :=
  match png_base64 pil_image with
  | Some img_str => Some ("data:image/png;base64," +:+ img_str)
  | None => None
  end.

(** [create_sample_image_base64] of [backend_test.py]: a fresh image of
    one colour as a data URL, [None] when an exception is caught. *)
Definition create_sample_image_base64 (color : string) (size : nat * nat)
    : option string :=
  match new_rgb color size with
  | Some img =>
      match png_base64 img with
      | Some img_str => Some ("data:image/png;base64," +:+ img_str)
      | None => None
      end
  | None => None
  end.

End Codec.

Arguments pil_to_base64 {image} png_base64 pil_image.
Arguments create_sample_image_base64 {image} png_base64 new_rgb color size.

(** ** Vocabulary of the further properties *)

Definition InternalServerError (e : HTTPException) : Prop :=
  e = mkHTTPException 500 "Internal server error".

(** The keys of a try-on document that no handler writes after the
    creation of the record. *)
Definition immutable_keys : list string :=
  ["id"; "name"; "user_image_url"; "clothing_image_url"; "measurements";
   "style"; "created_at"].

(** Every record of [d] is still in [d'], at the same place, with the
    same values under the immutable keys. *)
Definition kept (d d' : Db) : Prop :=
  forall (k : nat) record,
    tryon_results d !! k = Some record ->
    exists record',
      tryon_results d' !! k = Some record'
      /\ forall key, key ∈ immutable_keys -> record' !! key = record !! key.

(** The ids of the stored try-on documents. *)
Definition stored_ids (d : Db) : list (option value) :=
  (.!! "id") <$> tryon_results d.



(** In a list of databases, every later one keeps the records of
    every earlier one. *)
Definition ordered_kept (h : list Db) : Prop :=
  forall (i j : nat) di dj,
    (i <= j)%nat -> h !! i = Some di -> h !! j = Some dj -> kept di dj.


(** ** The scenario, continued *)

Module Scenario2.

(** a PNG encoder that always produces the same base64 text, and an
    image constructor that always succeeds *)
Definition png_base64 (img : unit) : option string := Some "iVBORw0KGgo=".

Definition new_rgb (color : string) (size : nat * nat) : option unit :=
  Some tt.

(** the request of the scenario with a user image that is a data URL
    header without payload *)
Definition request_bad_image : TryOnRequest.t :=
  TryOnRequest.make "Test User" "data:image/png;base64"
    "data:image/png;base64,iVBORw0KGgp=" Scenario.measurements "casual".

Definition probe : Factory := mkFactory "7b1d44c0-0005" 1700000240.

(** the scenario followed by one status check *)
Definition after_status : World :=
  (create_status_check probe "test_client_101500" Scenario.after_empty).1.

End Scenario2.

(** * Part II: the properties *)

(** ** Facts on the string operations *)

Lemma rstrip_all_space s : PyStr.all_space s = true -> PyStr.rstrip s = "".
Proof.
  induction s as [|a s IH]; simpl; [done|].
  intros [Ha Hs]%andb_prop. by rewrite IH, Ha.
Qed.

Lemma rstrip_empty s : PyStr.rstrip s = "" -> PyStr.all_space s = true.
Proof.
  induction s as [|a s IH]; simpl; [done|].
  destruct (PyStr.rstrip s) eqn:Hr; [|done].
  destruct (PyStr.isspace a); [|done]. intros _. by rewrite IH.
Qed.

Lemma lstrip_all_space s : PyStr.all_space s = true -> PyStr.lstrip s = "".
Proof.
  induction s as [|a s IH]; simpl; [done|].
  intros [Ha Hs]%andb_prop. rewrite Ha. auto.
Qed.

(** [not s.strip()] holds exactly for the strings made of white space
    only (the empty string among them). *)
Lemma strip_empty_iff s : PyStr.strip s = "" <-> PyStr.all_space s = true.
Proof.
  unfold PyStr.strip. split.
  - intros H%rstrip_empty. induction s as [|a s IH]; simpl in *; [done|].
    destruct (PyStr.isspace a) eqn:Ha; simpl; [auto|].
    simpl in H. by rewrite Ha in H.
  - intros H. by rewrite lstrip_all_space.
Qed.

Lemma PyStr_truthy_false s : PyStr.truthy s = false <-> s = "".
Proof. destruct s; simpl; split; congruence. Qed.

(** ** The order of the sort *)

Global Instance newer_first_total : Total Mongo.newer_first.
Proof.
  intros d1 d2. unfold Mongo.newer_first.
  destruct (Mongo.date_key d1), (Mongo.date_key d2); simpl; auto. lia.
Qed.

Global Instance newer_first_trans : Transitive Mongo.newer_first.
Proof.
  intros d1 d2 d3. unfold Mongo.newer_first.
  destruct (Mongo.date_key d1), (Mongo.date_key d2), (Mongo.date_key d3);
    simpl; auto; try tauto. lia.
Qed.

(** ** Dictionaries of the models *)

(** Compare two dictionaries built by insertions at the key [k]: one
    case for each inserted key, and the case of any other key. *)
Ltac dict_cases k :=
  repeat match goal with
    | |- context [ <[?key := _]> _ !! k ] =>
        destruct (decide (key = k)) as [<-|?];
        [first [reflexivity | congruence]
        | rewrite !(lookup_insert_ne _ key k) by done]
    end.

Lemma dict_lookup_id r :
  TryOnResult.dict r !! "id" = Some (VStr (TryOnResult.id r)).
Proof. reflexivity. Qed.

Lemma dict_lookup_status r :
  TryOnResult.dict r !! "status" = Some (VStr (TryOnResult.status r)).
Proof. reflexivity. Qed.

Lemma dict_lookup_tryon_image r :
  TryOnResult.dict r !! "tryon_image"
  = Some (Field.of_opt (TryOnResult.tryon_image r)).
Proof. reflexivity. Qed.

Lemma dict_lookup_created_at r :
  TryOnResult.dict r !! "created_at"
  = Some (VDatetime (TryOnResult.created_at r)).
Proof. reflexivity. Qed.

(** A dumped record is read back as itself, whatever the factories. *)
Lemma parse_dict f r : TryOnResult.parse f (TryOnResult.dict r) = Some r.
Proof. destruct r as [i n [u|] [c|] [g|] m s [b|] a z]; reflexivity. Qed.

(** Writing all the fields of [r] over a dumped record gives the dump
    of [r]. *)
Lemma set_fields_dict r r0 :
  Mongo.set_fields (TryOnResult.dict r) (TryOnResult.dict r0)
  = TryOnResult.dict r.
Proof.
  unfold Mongo.set_fields.
  unfold TryOnResult.dict at 1 3. rewrite <- !insert_union_l, (left_id_L ∅ (∪)).
  apply map_eq. intros k. unfold TryOnResult.dict. by dict_cases k.
Qed.

(** Writing the status alone over a dumped record gives the dump of
    the record with that status. *)
Lemma set_status_dict s r0 :
  Mongo.set_fields {[ "status" := VStr s ]} (TryOnResult.dict r0)
  = TryOnResult.dict (TryOnResult.set_status s r0).
Proof.
  unfold Mongo.set_fields. rewrite <- insert_union_singleton_l.
  apply map_eq. intros k. unfold TryOnResult.dict. simpl. by dict_cases k.
Qed.

(** A [$set] of fields leaves every other key of the document alone. *)
Lemma set_fields_frame (fields d : doc) k :
  fields !! k = None -> Mongo.set_fields fields d !! k = d !! k.
Proof. intros H. unfold Mongo.set_fields. by rewrite lookup_union_r. Qed.

Lemma set_fields_written (fields d : doc) k v :
  fields !! k = Some v -> Mongo.set_fields fields d !! k = Some v.
Proof. intros H. unfold Mongo.set_fields. by apply lookup_union_Some_l. Qed.

(** ** Lemmas on the collection operations *)

Lemma matches_dict x r :
  Mongo.matches x (TryOnResult.dict r) = bool_decide (TryOnResult.id r = x).
Proof.
  unfold Mongo.matches. rewrite dict_lookup_id.
  apply bool_decide_ext. split; [by intros [= ->]|by intros ->].
Qed.

Lemma find_one_app x c c' :
  Mongo.find_one x (c ++ c')
  = match Mongo.find_one x c with
    | Some d => Some d
    | None => Mongo.find_one x c'
    end.
Proof.
  unfold Mongo.find_one. induction c as [|d c IH]; simpl; [done|].
  by destruct (Mongo.matches x d).
Qed.

Lemma find_one_matches x c d :
  Mongo.find_one x c = Some d -> Mongo.matches x d = true.
Proof.
  unfold Mongo.find_one. induction c as [|d' c IH]; simpl; [done|].
  destruct (Mongo.matches x d') eqn:E; [by intros [= <-]|done].
Qed.

Lemma find_one_elem x c d : Mongo.find_one x c = Some d -> d ∈ c.
Proof.
  unfold Mongo.find_one. induction c as [|d' c IH]; simpl; [done|].
  destruct (Mongo.matches x d'); [intros [= <-]; left|right; auto].
Qed.

Lemma update_one_app x fields c c' :
  Mongo.update_one x fields (c ++ c')
  = match Mongo.find_one x c with
    | Some _ => Mongo.update_one x fields c ++ c'
    | None => c ++ Mongo.update_one x fields c'
    end.
Proof.
  unfold Mongo.find_one. induction c as [|d c IH]; simpl; [done|].
  destruct (Mongo.matches x d); [done|].
  rewrite IH. by destruct (find _ c).
Qed.

Lemma update_one_length x fields c :
  length (Mongo.update_one x fields c) = length c.
Proof.
  induction c as [|d c IH]; simpl; [done|].
  destruct (Mongo.matches x d); simpl; congruence.
Qed.


(** After an update that writes the key [id] with the id looked for,
    the first match is the updated document. *)
Lemma find_one_update_one x fields c d :
  fields !! "id" = Some (VStr x) ->
  Mongo.find_one x c = Some d ->
  Mongo.find_one x (Mongo.update_one x fields c)
  = Some (Mongo.set_fields fields d).
Proof.
  intros Hid. unfold Mongo.find_one.
  induction c as [|d' c IH]; simpl; [done|].
  destruct (Mongo.matches x d') eqn:E; simpl.
  - intros [= ->]. unfold Mongo.matches at 1.
    rewrite (set_fields_written _ _ _ _ Hid).
    by rewrite bool_decide_eq_true_2.
  - rewrite E. auto.
Qed.

(** An id that matches no document of [c]: the update of the record
    appended last touches that record only. *)
Lemma update_one_fresh x fields c d :
  Mongo.find_one x c = None -> Mongo.matches x d = true ->
  Mongo.update_one x fields (c ++ [d]) = c ++ [Mongo.set_fields fields d].
Proof.
  intros Hc Hd. rewrite update_one_app, Hc. simpl. by rewrite Hd.
Qed.

Lemma find_one_fresh x c d :
  Mongo.find_one x c = None -> Mongo.matches x d = true ->
  Mongo.find_one x (c ++ [d]) = Some d.
Proof.
  intros Hc Hd. rewrite find_one_app, Hc. unfold Mongo.find_one. simpl.
  by rewrite Hd.
Qed.

Lemma find_one_other x c d :
  Mongo.matches x d = false ->
  Mongo.find_one x (c ++ [d]) = Mongo.find_one x c.
Proof.
  intros Hd. rewrite find_one_app. destruct (Mongo.find_one x c); [done|].
  unfold Mongo.find_one. simpl. by rewrite Hd.
Qed.

Lemma find_one_update_one_gen x fields c d :
  Mongo.matches x (Mongo.set_fields fields d) = true ->
  Mongo.find_one x c = Some d ->
  Mongo.find_one x (Mongo.update_one x fields c)
  = Some (Mongo.set_fields fields d).
Proof.
  intros Hm. unfold Mongo.find_one.
  induction c as [|d' c IH]; simpl; [done|].
  destruct (Mongo.matches x d') eqn:E; simpl.
  - intros [= ->]. by rewrite Hm.
  - rewrite E. auto.
Qed.

(** A [$set] that does not write the key [id] keeps the match. *)
Lemma matches_set_fields_frame x fields d :
  fields !! "id" = None ->
  Mongo.matches x (Mongo.set_fields fields d) = Mongo.matches x d.
Proof. intros H. unfold Mongo.matches. by rewrite set_fields_frame. Qed.


(** The record just inserted makes the id findable. *)
Lemma find_one_inserted c r :
  exists d, Mongo.find_one (TryOnResult.id r) (c ++ [TryOnResult.dict r])
            = Some d.
Proof.
  rewrite find_one_app. destruct (Mongo.find_one _ c) as [d|]; [eauto|].
  exists (TryOnResult.dict r). unfold Mongo.find_one. simpl.
  by rewrite matches_dict, bool_decide_eq_true_2.
Qed.

(** ** Facts on the records and their life *)

Lemma has_artifact_dict r :
  has_artifact (TryOnResult.dict r) <-> is_Some (TryOnResult.tryon_image r).
Proof.
  unfold has_artifact. rewrite dict_lookup_tryon_image.
  destruct (TryOnResult.tryon_image r) as [a|]; simpl; split.
  - eauto.
  - intros _. by exists (VStr a).
  - by intros (v & [= <-] & ?).
  - by intros [? ?].
Qed.

Lemma dumped_artifact d :
  dumped d -> has_artifact d <-> d !! "status" = Some (VStr "completed").
Proof.
  intros (r & -> & Hr). rewrite has_artifact_dict, dict_lookup_status, Hr.
  split; [by intros ->|by intros [= ->]].
Qed.

Lemma allowed_refl a : allowed a a = true.
Proof. unfold allowed. by rewrite bool_decide_eq_true_2. Qed.

Lemma lifecycle_app cur h1 h2 :
  lifecycle cur (h1 ++ h2)
  = lifecycle cur h1 && lifecycle (default cur (last h1)) h2.
Proof.
  revert cur. induction h1 as [|s h1 IH]; intros cur; simpl; [done|].
  rewrite IH, last_cons, andb_assoc. by destruct (last h1).
Qed.

(** From a terminal status on, the history does not move. *)
Lemma lifecycle_terminal s h :
  s <> "processing" -> lifecycle (Some (VStr s)) h = true ->
  forall j v, h !! j = Some v -> v = Some (VStr s).
Proof.
  intros Hs. induction h as [|a h IH]; intros Hl j v Hj; [done|].
  simpl in Hl. apply andb_prop in Hl as [Ha Hl].
  assert (a = Some (VStr s)) as ->.
  { unfold allowed in Ha.
    repeat (apply orb_prop in Ha as [Ha|Ha]);
      apply bool_decide_eq_true_1 in Ha;
      [done|by destruct Ha|destruct Ha as [[= ?] _]; congruence]. }
  destruct j as [|j]; simpl in Hj; [by injection Hj as <-|eauto].
Qed.

Lemma lifecycle_settled cur h :
  lifecycle cur h = true ->
  forall (i j : nat) s,
    (i <= j)%nat -> h !! i = Some (Some (VStr s)) -> s <> "processing" ->
    (j < length h)%nat -> h !! j = Some (Some (VStr s)).
Proof.
  revert cur. induction h as [|a h IH]; intros cur Hl i j s Hij Hi Hs Hj;
    [done|].
  simpl in Hl. apply andb_prop in Hl as [_ Hl].
  destruct i as [|i]; simpl in Hi.
  - injection Hi as ->. destruct j as [|j]; [done|]. simpl in *.
    destruct (h !! j) as [v|] eqn:Hv.
    + by rewrite (lifecycle_terminal s h Hs Hl j v Hv).
    + apply lookup_ge_None in Hv. lia.
  - destruct j as [|j]; [lia|]. simpl in *.
    eapply (IH a Hl i j s); [lia|done|done|lia].
Qed.

Lemma date_key_dict r :
  Mongo.date_key (TryOnResult.dict r) = Some (TryOnResult.created_at r).
Proof. reflexivity. Qed.

Lemma parse_results_dumped fs i docs :
  Forall dumped docs ->
  exists rs, parse_results fs i docs = Some rs
             /\ TryOnResult.dict <$> rs = docs.
Proof.
  intros H. revert i. induction H as [|d docs (r & -> & _) _ IH]; intros i.
  - by exists [].
  - destruct (IH (S i)) as (rs & Hrs & <-).
    exists (r :: rs). simpl. by rewrite parse_dict, Hrs.
Qed.

Lemma newest_first_of_docs rs :
  StronglySorted Mongo.newer_first (TryOnResult.dict <$> rs) ->
  StronglySorted newest_first rs.
Proof.
  induction rs as [|r rs IH]; [constructor|].
  rewrite fmap_cons, !StronglySorted_cons, Forall_fmap.
  intros [Hall Hs]. split; [|auto].
  eapply Forall_impl; [exact Hall|]. intros r'. simpl.
  unfold Mongo.newer_first, newest_first. by rewrite !date_key_dict.
Qed.

(** A record read from a document on which all the fields of [r] were
    written is [r]. *)
Lemma parse_set_fields f r d :
  TryOnResult.parse f (Mongo.set_fields (TryOnResult.dict r) d) = Some r.
Proof.
  assert (forall k v, TryOnResult.dict r !! k = Some v ->
                      Mongo.set_fields (TryOnResult.dict r) d !! k = Some v)
    as H by (intros; by apply set_fields_written).
  unfold TryOnResult.parse.
  rewrite (H "id" _ eq_refl), (H "name" _ eq_refl),
    (H "user_image_url" _ eq_refl), (H "clothing_image_url" _ eq_refl),
    (H "tryon_image" _ eq_refl), (H "measurements" _ eq_refl),
    (H "style" _ eq_refl), (H "feedback" _ eq_refl),
    (H "created_at" _ eq_refl), (H "status" _ eq_refl).
  destruct r as [i n [u|] [c|] [g|] m s [b|] a z]; reflexivity.
Qed.

Lemma scrub_dict r r' :
  TryOnResult.name r = TryOnResult.name r' ->
  TryOnResult.user_image_url r = TryOnResult.user_image_url r' ->
  TryOnResult.clothing_image_url r = TryOnResult.clothing_image_url r' ->
  TryOnResult.tryon_image r = TryOnResult.tryon_image r' ->
  TryOnResult.measurements r = TryOnResult.measurements r' ->
  TryOnResult.style r = TryOnResult.style r' ->
  TryOnResult.feedback r = TryOnResult.feedback r' ->
  TryOnResult.status r = TryOnResult.status r' ->
  scrub (TryOnResult.dict r) = scrub (TryOnResult.dict r').
Proof.
  destruct r, r'. simpl. intros -> -> -> -> -> -> -> ->.
  apply map_eq. intros k. unfold scrub, TryOnResult.dict. simpl.
  rewrite !(lookup_delete _ _ k).
  repeat (case_decide; [done|]). by dict_cases k.
Qed.

(** ** The handlers, step by step *)

Section Properties.

Context {image : Type} (open_image : string -> option image).

(** [generate_virtual_tryon] writes nothing to the database; it
    submits at most one job. *)
Lemma generate_virtual_tryon_world e u c m s n w :
  let w' := (generate_virtual_tryon open_image e u c m s n w).1 in
  db w' = db w /\ journal w' = journal w.
Proof.
  unfold generate_virtual_tryon. simpl.
  destruct (_ || _); [done|].
  destruct (fal_client e _ _) as [msg|[|[[|first rest]|]]]; try done.
  by destruct (first !! "url").
Qed.

(** A success of [generate_virtual_tryon] carries the url of the
    first image of the answer of the job. *)
Lemma generate_virtual_tryon_success e request w w' url fb :
  generate_virtual_tryon open_image e
    (TryOnRequest.user_image request) (TryOnRequest.clothing_image request)
    (TryOnRequest.measurements request) (TryOnRequest.style request)
    (TryOnRequest.name request) w = (w', GenSuccess url fb) ->
  (exists first rest,
      fal_client e "fal-ai/flux/dev" (job_arguments request)
      = FalReturns (FalDict (Some (first :: rest)))
      /\ first !! "url" = Some url)
  /\ fb = "Virtual try-on generated successfully for "
          +:+ TryOnRequest.style request +:+ " style!".
Proof.
  unfold generate_virtual_tryon. fold (job_arguments request).
  destruct (_ || _); [done|].
  destruct (fal_client e _ _) as [msg|[|[[|first rest]|]]]; try done.
  destruct (first !! "url") as [u|] eqn:Hu; [|done].
  intros [= _ <- <-]. eauto.
Qed.

(** [generate_tryon] on a request that passes the checks, with a
    fresh id: the two writes and the answer, by the outcome of the
    generation. *)
Lemma generate_tryon_fresh e request w :
  valid request = true -> fresh_id e w ->
  let c := tryon_results (db w) in
  let r0 := pending e request in
  let gw := generate_virtual_tryon open_image e
              (TryOnRequest.user_image request)
              (TryOnRequest.clothing_image request)
              (TryOnRequest.measurements request)
              (TryOnRequest.style request)
              (TryOnRequest.name request)
              (tryon_insert_one (TryOnResult.dict r0) w) in
  generate_tryon open_image e request w
  = match gw.2 with
    | GenSuccess img fb =>
        (write {| tryon_results :=
                    c ++ [TryOnResult.dict (completed e request img fb)];
                  status_checks := status_checks (db w) |} gw.1,
         Return (success_body (completed e request img fb)))
    | GenFailure error =>
        (write {| tryon_results :=
                    c ++ [TryOnResult.dict
                            (TryOnResult.set_status "failed" r0)];
                  status_checks := status_checks (db w) |} gw.1,
         Raise (mkHTTPException 500
                  ("Failed to generate try-on: " +:+ error)))
    end.
Proof.
  intros Hv Hf c r0 gw. unfold generate_tryon.
  unfold valid in Hv. apply andb_prop in Hv as [[H1 H2]%andb_prop H3].
  rewrite H1, H2, H3. simpl negb. cbv iota.
  fold (pending e request). fold r0. fold gw.
  pose proof (generate_virtual_tryon_world e
    (TryOnRequest.user_image request) (TryOnRequest.clothing_image request)
    (TryOnRequest.measurements request) (TryOnRequest.style request)
    (TryOnRequest.name request)
    (tryon_insert_one (TryOnResult.dict r0) w)) as [Hdb Hj].
  fold gw in Hdb, Hj. destruct gw as [w2 g]. simpl in Hdb, Hj |- *.
  assert (Hm : Mongo.matches (uuid4 (factory e)) (TryOnResult.dict r0) = true).
  { rewrite matches_dict. by apply bool_decide_eq_true_2. }
  destruct g as [img fb|error]; unfold tryon_update_one; rewrite Hdb; simpl;
    unfold Mongo.insert_one; rewrite (update_one_fresh _ _ _ _ Hf Hm).
  - by rewrite set_fields_dict.
  - by rewrite set_status_dict.
Qed.

(** [generate_tryon] on a request that passes the checks, whatever the
    id drawn. *)
Lemma generate_tryon_valid e request w :
  valid request = true ->
  let gw := generate_virtual_tryon open_image e
              (TryOnRequest.user_image request)
              (TryOnRequest.clothing_image request)
              (TryOnRequest.measurements request)
              (TryOnRequest.style request)
              (TryOnRequest.name request)
              (tryon_insert_one (TryOnResult.dict (pending e request)) w) in
  generate_tryon open_image e request w
  = match gw.2 with
    | GenSuccess img fb =>
        (tryon_update_one (uuid4 (factory e))
           (TryOnResult.dict (completed e request img fb)) gw.1,
         Return (success_body (completed e request img fb)))
    | GenFailure error =>
        (tryon_update_one (uuid4 (factory e))
           {[ "status" := VStr "failed" ]} gw.1,
         Raise (mkHTTPException 500
                  ("Failed to generate try-on: " +:+ error)))
    end.
Proof.
  intros Hv gw. unfold generate_tryon.
  unfold valid in Hv. apply andb_prop in Hv as [[H1 H2]%andb_prop H3].
  rewrite H1, H2, H3. simpl negb. cbv iota.
  fold (pending e request). fold gw. by destruct gw as [w2 [img fb|error]].
Qed.

(** The error text of a failed generation: the images did not decode,
    or the job raised and the text is the one of its exception, or the
    first image has no url (the text of the key error), or the answer
    holds no image. *)
Lemma generate_virtual_tryon_failure e request w error :
  (generate_virtual_tryon open_image e
     (TryOnRequest.user_image request) (TryOnRequest.clothing_image request)
     (TryOnRequest.measurements request) (TryOnRequest.style request)
     (TryOnRequest.name request) w).2 = GenFailure error ->
  error = "Failed to process uploaded images"
  \/ fal_client e "fal-ai/flux/dev" (job_arguments request) = FalRaises error
  \/ error = "'url'"
  \/ error = "No images generated by FAL.AI".
Proof.
  unfold generate_virtual_tryon. fold (job_arguments request).
  destruct (_ || _); simpl; [intros [= <-]; auto|].
  destruct (fal_client e _ _) as [msg|[|[[|first rest]|]]]; simpl;
    try (intros [= <-]; by auto).
  destruct (first !! "url"); simpl; [done|intros [= <-]; auto].
Qed.

(** Once both payloads decode, [generate_virtual_tryon] submits the
    job built from the measurements and the style, and nothing of the
    payloads remains. *)
Lemma generate_virtual_tryon_decoded e request w :
  is_Some (base64_to_pil open_image (TryOnRequest.user_image request)) ->
  is_Some (base64_to_pil open_image (TryOnRequest.clothing_image request)) ->
  generate_virtual_tryon open_image e
    (TryOnRequest.user_image request) (TryOnRequest.clothing_image request)
    (TryOnRequest.measurements request) (TryOnRequest.style request)
    (TryOnRequest.name request) w
  = (submit_async "fal-ai/flux/dev" (job_arguments request) w,
     job_result e request).
Proof.
  intros Hu Hc. unfold generate_virtual_tryon, job_result.
  fold (job_arguments request).
  rewrite !bool_decide_eq_true_2 by done. simpl.
  destruct (fal_client e _ _) as [msg|[|[[|first rest]|]]]; try done.
  by destruct (first !! "url").
Qed.

Lemma decoded_truthy s :
  open_image "" = None -> is_Some (base64_to_pil open_image s) ->
  PyStr.truthy s = true.
Proof.
  intros H0 Hs. destruct s; [|done].
  unfold base64_to_pil in Hs. simpl in Hs. rewrite H0 in Hs.
  by destruct Hs.
Qed.

(** The two writes of a call of [generate_tryon] that passes the
    checks: the pending record is appended, then replaced by its
    final form. *)
Lemma generate_tryon_writes e request w :
  valid request = true -> fresh_id e w ->
  let c := tryon_results (db w) in
  let w' := (generate_tryon open_image e request w).1 in
  exists rf,
    (rf = TryOnResult.set_status "failed" (pending e request)
     \/ exists img fb, rf = completed e request img fb)
    /\ db w' = {| tryon_results := c ++ [TryOnResult.dict rf];
                  status_checks := status_checks (db w) |}
    /\ journal w'
       = journal w
         ++ [ {| tryon_results := c ++ [TryOnResult.dict (pending e request)];
                 status_checks := status_checks (db w) |};
              {| tryon_results := c ++ [TryOnResult.dict rf];
                 status_checks := status_checks (db w) |} ].
Proof.
  intros Hv Hf c w'. subst w'.
  rewrite (generate_tryon_fresh e request w Hv Hf).
  pose proof (generate_virtual_tryon_world e
    (TryOnRequest.user_image request) (TryOnRequest.clothing_image request)
    (TryOnRequest.measurements request) (TryOnRequest.style request)
    (TryOnRequest.name request)
    (tryon_insert_one (TryOnResult.dict (pending e request)) w)) as [_ Hj].
  simpl in Hj.
  destruct (generate_virtual_tryon _ _ _ _ _ _ _ _) as [w2 [img fb|error]];
    simpl in *; rewrite Hj, <- (assoc_L (++)); simpl.
  - exists (completed e request img fb). eauto 6.
  - exists (TryOnResult.set_status "failed" (pending e request)). eauto.
Qed.

Lemma generate_tryon_invalid e request w :
  valid request = false ->
  exists msg,
    generate_tryon open_image e request w
    = (w, Raise (mkHTTPException 400 msg))
    /\ (msg = "User image is required"
        /\ TryOnRequest.user_image request = ""
        \/ msg = "Clothing image is required"
           /\ TryOnRequest.clothing_image request = ""
        \/ msg = "Name is required"
           /\ PyStr.strip (TryOnRequest.name request) = "").
Proof.
  unfold valid, generate_tryon. intros Hv.
  destruct (PyStr.truthy (TryOnRequest.user_image request)) eqn:H1; simpl.
  - destruct (PyStr.truthy (TryOnRequest.clothing_image request)) eqn:H2;
      simpl.
    + simpl in Hv. rewrite Hv. simpl. apply PyStr_truthy_false in Hv. eauto 8.
    + apply PyStr_truthy_false in H2. eauto 8.
  - apply PyStr_truthy_false in H1. eauto 8.
Qed.

Lemma dumped_pending e request : dumped (TryOnResult.dict (pending e request)).
Proof.
  exists (pending e request). split; [done|]. simpl.
  split; [by intros [? [=]]|done].
Qed.

Lemma dumped_final e request rf :
  rf = TryOnResult.set_status "failed" (pending e request)
  \/ (exists img fb, rf = completed e request img fb) ->
  dumped (TryOnResult.dict rf).
Proof.
  intros [->|(img & fb & ->)]; eexists; (split; [done|]); simpl.
  - split; [by intros [? [=]]|done].
  - split; [done|eauto].
Qed.

Lemma last_snoc2 {A} (l : list A) a b : last (l ++ [a; b]) = Some b.
Proof. change (l ++ [a; b]) with (l ++ [a] ++ [b]). by rewrite (assoc_L (++)), last_snoc. Qed.

Lemma step_ok o w : world_ok w -> fresh_op o w -> world_ok (step open_image o w).
Proof.
  intros (Hdb & Hj & Hs) Hf. destruct o; simpl; try done.
  - (* create_status_check *)
    unfold world_ok, in_sync, db_ok in *. simpl.
    rewrite last_snoc. split_and!; [done| |done].
    apply Forall_app. split; [done|]. by constructor.
  - (* generate_tryon *)
    destruct (valid request) eqn:Hv.
    + destruct (generate_tryon_writes e request w Hv (Hf Hv))
        as (rf & Hrf & Hd & Hjn).
      unfold world_ok, in_sync. rewrite Hd, Hjn, last_snoc2.
      assert (db_ok {| tryon_results :=
                         tryon_results (db w) ++ [TryOnResult.dict rf];
                       status_checks := status_checks (db w) |}) as Hfin.
      { apply Forall_app. split; [done|].
        constructor; [|done]. by eapply dumped_final. }
      split_and!; [done| |done].
      apply Forall_app. split; [done|].
      constructor; [|by constructor].
      apply Forall_app. split; [done|].
      constructor; [|done]. apply dumped_pending.
    + destruct (generate_tryon_invalid e request w Hv) as (msg & -> & _).
      done.
Qed.

Lemma reachable_ok w : reachable open_image w -> world_ok w.
Proof.
  induction 1 as [|o w Hr IH Hf]; [|by apply step_ok].
  unfold world_ok, in_sync, db_ok. simpl. by split_and!.
Qed.

Lemma current_status w x :
  in_sync w ->
  default None (last (status_of x <$> journal w)) = status_of x (db w).
Proof.
  unfold in_sync. intros ->. rewrite fmap_last.
  by destruct (last (journal w)).
Qed.

Lemma status_of_other x c c' sc r :
  TryOnResult.id r <> x ->
  status_of x {| tryon_results := c ++ [TryOnResult.dict r];
                 status_checks := sc |}
  = status_of x {| tryon_results := c; status_checks := c' |}.
Proof.
  intros Hne. unfold status_of. simpl. rewrite find_one_other; [done|].
  rewrite matches_dict. by apply bool_decide_eq_false_2.
Qed.

Lemma status_of_new c sc r :
  Mongo.find_one (TryOnResult.id r) c = None ->
  status_of (TryOnResult.id r)
    {| tryon_results := c ++ [TryOnResult.dict r]; status_checks := sc |}
  = Some (VStr (TryOnResult.status r)).
Proof.
  intros Hf. unfold status_of. simpl. rewrite find_one_fresh; [done|done|].
  rewrite matches_dict. by apply bool_decide_eq_true_2.
Qed.

(** A call extends the history of every id by allowed moves. *)
Lemma step_lifecycle o w x :
  in_sync w -> fresh_op o w ->
  exists extra,
    journal (step open_image o w) = journal w ++ extra
    /\ lifecycle (status_of x (db w)) (status_of x <$> extra) = true.
Proof.
  intros Hs Hf.
  destruct o; simpl; try (exists []; by rewrite (right_id_L [] (++))).
  - (* create_status_check *)
    eexists [_]. split; [done|]. simpl. unfold status_of at 2. simpl.
    fold (status_of x (db w)). by rewrite allowed_refl.
  - (* generate_tryon *)
    destruct (valid request) eqn:Hv.
    + destruct (generate_tryon_writes e request w Hv (Hf Hv))
        as (rf & Hrf & _ & ->).
      eexists [_; _]. split; [done|].
      assert (TryOnResult.id rf = uuid4 (factory e)) as Hid
        by (by destruct Hrf as [->|(? & ? & ->)]).
      destruct (decide (x = uuid4 (factory e))) as [->|Hne].
      * pose proof (Hf Hv) as Hfresh. unfold fresh_id in Hfresh.
        pose proof (status_of_new (tryon_results (db w))
                      (status_checks (db w)) (pending e request) Hfresh) as H1.
        pose proof (status_of_new (tryon_results (db w))
                      (status_checks (db w)) rf) as H2.
        rewrite Hid in H2. specialize (H2 Hfresh).
        simpl in H1 |- *. rewrite H1, H2.
        unfold status_of. rewrite Hfresh. simpl.
        by destruct Hrf as [->|(? & ? & ->)].
      * simpl.
        rewrite (status_of_other x _ (status_checks (db w)) _ rf)
          by congruence.
        rewrite (status_of_other x _ (status_checks (db w)) _
                   (pending e request)) by (simpl; congruence).
        destruct (db w). simpl. by rewrite !allowed_refl.
    + destruct (generate_tryon_invalid e request w Hv)
        as (msg & -> & _).
      exists []. by rewrite (right_id_L [] (++)).
Qed.

Lemma reachable_lifecycle w x :
  reachable open_image w -> lifecycle None (status_of x <$> journal w) = true.
Proof.
  induction 1 as [|o w Hr IH Hf]; [done|].
  pose proof (reachable_ok w Hr) as (_ & _ & Hs).
  destruct (step_lifecycle o w x Hs Hf) as (extra & -> & Hl).
  by rewrite fmap_app, lifecycle_app, IH, (current_status w x Hs).
Qed.

(** ** The claims *)




(** C4. In every world that the service reaches, the history of the
    status stored for an id, write after write, follows the life of a
    record: absent, then [processing], then [completed] or [failed];
    once the status is [completed] or [failed] it is the same after
    every later write. *)
Theorem status_lifecycle w x :
  reachable open_image w ->
  let h := status_of x <$> journal w in
  lifecycle None h = true
  /\ forall (i j : nat) s,
       (i <= j)%nat -> h !! i = Some (Some (VStr s)) -> s <> "processing" ->
       (j < length h)%nat -> h !! j = Some (Some (VStr s)).
Proof.
  intros Hr h. pose proof (reachable_lifecycle w x Hr) as Hl.
  split; [done|]. by apply (lifecycle_settled None).
Qed.


(** C6. In every world that the service reaches,
    [get_tryon_image_base64] fails with [NotFoundError] when no record
    has the id; it fails with [ArtifactUnavailableError] when the
    record found has a status other than [completed]; and when it
    returns, a record was found, that record has an artifact, and the
    body carries it. *)
Theorem artifact_access w x :
  reachable open_image w ->
  (Mongo.find_one x (tryon_results (db w)) = None ->
   exists err, get_tryon_image_base64 x w = Raise err /\ NotFoundError err)
  /\ (forall d,
        Mongo.find_one x (tryon_results (db w)) = Some d ->
        d !! "status" <> Some (VStr "completed") ->
        exists err,
          get_tryon_image_base64 x w = Raise err
          /\ ArtifactUnavailableError err)
  /\ (forall body,
        get_tryon_image_base64 x w = Return body ->
        exists d,
          Mongo.find_one x (tryon_results (db w)) = Some d
          /\ has_artifact d
          /\ body !! "image_base64" = d !! "tryon_image").
Proof.
  intros Hr. destruct (reachable_ok w Hr) as (Hdb & _ & _).
  unfold get_tryon_image_base64.
  destruct (Mongo.find_one x (tryon_results (db w))) as [d|] eqn:Hd.
  - assert (dumped d) as Hdump.
    { unfold db_ok in Hdb. rewrite Forall_forall in Hdb.
      apply Hdb. by eapply find_one_elem. }
    pose proof (dumped_artifact d Hdump) as Hiff.
    destruct Hdump as (r & -> & Hdone).
    unfold not_get. rewrite dict_lookup_tryon_image.
    split_and!; [done| |].
    + intros ? [= <-] Hs.
      destruct (TryOnResult.tryon_image r) as [a|] eqn:Ha; simpl.
      * exfalso. apply Hs. apply Hiff. apply has_artifact_dict.
        rewrite Ha. eauto.
      * by eexists.
    + intros body. destruct (TryOnResult.tryon_image r) as [a|] eqn:Ha;
        simpl; [|done].
      destruct (PyStr.truthy a); simpl; [|done].
      intros [= <-]. eexists. split; [done|]. split.
      * apply has_artifact_dict. rewrite Ha. eauto.
      * by rewrite dict_lookup_tryon_image, Ha.
  - split_and!; [by eexists|done|done].
Qed.

(** C7. In every world that the service reaches, [get_all_tryons]
    returns the records of the first hundred documents of the stored
    collection arranged by descending [created_at]: the list is ordered
    newest first and holds at most 100 records. *)
Theorem list_newest_first fs w :
  reachable open_image w ->
  exists rs,
    get_all_tryons fs w = Return rs
    /\ (length rs <= 100)%nat
    /\ length rs = (100 `min` length (tryon_results (db w)))%nat
    /\ StronglySorted newest_first rs
    /\ exists docs,
         docs ≡ₚ tryon_results (db w)
         /\ TryOnResult.dict <$> rs = take 100 docs.
Proof.
  intros Hr. destruct (reachable_ok w Hr) as (Hdb & _ & _).
  unfold get_all_tryons, Mongo.to_list, Mongo.sort_created_at_desc.
  set (docs := merge_sort Mongo.newer_first (tryon_results (db w))).
  assert (docs ≡ₚ tryon_results (db w)) as Hperm
    by apply merge_sort_Permutation.
  assert (Forall dumped (take 100 docs)) as Hdump.
  { apply Forall_take. unfold db_ok in Hdb. by rewrite Hperm. }
  destruct (parse_results_dumped fs 0 _ Hdump) as (rs & -> & Hrs).
  exists rs. split; [done|].
  assert (length rs = (100 `min` length (tryon_results (db w)))%nat) as Hlen.
  { rewrite <- (length_fmap TryOnResult.dict), Hrs, length_take.
    by rewrite Hperm. }
  split_and!; [lia|done| |by exists docs].
  apply newest_first_of_docs. rewrite Hrs.
  apply (StronglySorted_app_1_l _ _ (drop 100 docs)).
  rewrite take_drop. apply StronglySorted_merge_sort; apply _.
Qed.

(** C8. After a submit call that returned a body, [get_tryon_result]
    on the id of that body, in the world the call left, returns a
    record with that id and with the name, the measurements and the
    style of the request. *)
Theorem get_after_submit e request w f w' body :
  generate_tryon open_image e request w = (w', Return body) ->
  exists x r,
    body !! "id" = Some (VStr x)
    /\ get_tryon_result f x w' = Return r
    /\ TryOnResult.id r = x
    /\ TryOnResult.name r = TryOnRequest.name request
    /\ TryOnResult.measurements r
       = Measurements.dict (TryOnRequest.measurements request)
    /\ TryOnResult.style r = TryOnRequest.style request.
Proof.
  destruct (valid request) eqn:Hv.
  2:{ destruct (generate_tryon_invalid e request w Hv)
        as (msg & -> & _). done. }
  rewrite (generate_tryon_valid e request w Hv).
  pose proof (generate_virtual_tryon_world e
    (TryOnRequest.user_image request) (TryOnRequest.clothing_image request)
    (TryOnRequest.measurements request) (TryOnRequest.style request)
    (TryOnRequest.name request)
    (tryon_insert_one (TryOnResult.dict (pending e request)) w)) as [Hdb _].
  destruct (generate_virtual_tryon _ _ _ _ _ _ _ _) as [w2 [img fb|error]];
    simpl in *; [|done].
  intros [= <- <-].
  exists (uuid4 (factory e)), (completed e request img fb).
  split; [done|]. split; [|done].
  unfold get_tryon_result. simpl. rewrite Hdb. simpl.
  destruct (find_one_inserted (tryon_results (db w)) (pending e request))
    as [d Hd]. simpl in Hd. unfold Mongo.insert_one.
  rewrite (find_one_update_one _ _ _ d) by done.
  by rewrite parse_set_fields.
Qed.

(** C9, as amended. On success, submit has persisted the update (the
    database of the last write holds, under the id, a record with
    status [completed]) and returns a body made of the flag [success]
    and of the id, the artifact, the feedback and the status of that
    stored record, and of nothing else. *)
Theorem submit_returns_summary e request w w' body :
  generate_tryon open_image e request w = (w', Return body) ->
  exists d,
    Mongo.find_one (uuid4 (factory e)) (tryon_results (db w')) = Some d
    /\ last (journal w') = Some (db w')
    /\ d !! "status" = Some (VStr "completed")
    /\ body !! "success" = Some (VBool true)
    /\ (forall k, k ∈ ["id"; "tryon_image"; "feedback"; "status"] ->
                  body !! k = d !! k)
    /\ (forall k, k ∉ ["success"; "id"; "tryon_image"; "feedback"; "status"] ->
                  body !! k = None).
Proof.
  destruct (valid request) eqn:Hv.
  2:{ destruct (generate_tryon_invalid e request w Hv)
        as (msg & -> & _). done. }
  rewrite (generate_tryon_valid e request w Hv).
  pose proof (generate_virtual_tryon_world e
    (TryOnRequest.user_image request) (TryOnRequest.clothing_image request)
    (TryOnRequest.measurements request) (TryOnRequest.style request)
    (TryOnRequest.name request)
    (tryon_insert_one (TryOnResult.dict (pending e request)) w)) as [Hdb _].
  destruct (generate_virtual_tryon _ _ _ _ _ _ _ _) as [w2 [img fb|error]];
    simpl in *; [|done].
  intros [= <- <-]. simpl. rewrite Hdb. simpl.
  destruct (find_one_inserted (tryon_results (db w)) (pending e request))
    as [d Hd]. simpl in Hd. unfold Mongo.insert_one.
  rewrite (find_one_update_one _ _ _ d) by done.
  eexists. split; [done|]. rewrite last_snoc.
  assert (forall k v,
            TryOnResult.dict (completed e request img fb) !! k = Some v ->
            Mongo.set_fields (TryOnResult.dict (completed e request img fb)) d
            !! k = Some v) as H by (intros; by apply set_fields_written).
  split_and!; [done|by apply H|done| |].
  - intros k Hk. repeat (apply elem_of_cons in Hk as [->|Hk]);
      [..|by apply elem_of_nil in Hk];
      (etrans; [|symmetry; eapply H; reflexivity]); reflexivity.
  - intros k Hk. unfold success_body.
    rewrite !not_elem_of_cons in Hk. destruct Hk as (?&?&?&?&?&_).
    by rewrite !lookup_insert_ne.
Qed.

(** C10. Two submit requests that differ in their image payloads only,
    all four payloads decoding to images (the decoder refusing the
    empty payload), run from the same world against the same FAL.AI
    behaviour with fresh ids: the jobs submitted to FAL.AI are the
    same, and after every write the stored documents are the same but
    for the keys [id] and [created_at]. *)
Theorem payloads_not_forwarded e1 e2 r1 r2 w :
  open_image "" = None ->
  (forall app a, fal_client e1 app a = fal_client e2 app a) ->
  TryOnRequest.name r1 = TryOnRequest.name r2 ->
  TryOnRequest.measurements r1 = TryOnRequest.measurements r2 ->
  TryOnRequest.style r1 = TryOnRequest.style r2 ->
  is_Some (base64_to_pil open_image (TryOnRequest.user_image r1)) ->
  is_Some (base64_to_pil open_image (TryOnRequest.clothing_image r1)) ->
  is_Some (base64_to_pil open_image (TryOnRequest.user_image r2)) ->
  is_Some (base64_to_pil open_image (TryOnRequest.clothing_image r2)) ->
  fresh_id e1 w -> fresh_id e2 w ->
  let w1 := (generate_tryon open_image e1 r1 w).1 in
  let w2 := (generate_tryon open_image e2 r2 w).1 in
  fal_log w1 = fal_log w2
  /\ scrub_db <$> journal w1 = scrub_db <$> journal w2
  /\ scrub_db (db w1) = scrub_db (db w2).
Proof.
  intros H0 Hfal Hn Hm Hs Hu1 Hc1 Hu2 Hc2 Hf1 Hf2 w1 w2. subst w1 w2.
  assert (valid r1 = valid r2) as Hv.
  { unfold valid. rewrite Hn.
    by rewrite (decoded_truthy _ H0 Hu1), (decoded_truthy _ H0 Hc1),
      (decoded_truthy _ H0 Hu2), (decoded_truthy _ H0 Hc2). }
  destruct (valid r2) eqn:Hv2.
  2:{ destruct (generate_tryon_invalid e1 r1 w Hv)
        as (? & -> & _).
      destruct (generate_tryon_invalid e2 r2 w Hv2)
        as (? & -> & _). done. }
  rewrite (generate_tryon_fresh e1 r1 w Hv Hf1).
  rewrite (generate_tryon_fresh e2 r2 w Hv2 Hf2).
  rewrite !generate_virtual_tryon_decoded by done.
  assert (job_arguments r1 = job_arguments r2) as Ha
    by (unfold job_arguments; by rewrite Hm, Hs).
  assert (job_result e1 r1 = job_result e2 r2) as Hr
    by (unfold job_result; by rewrite Ha, Hs, Hfal).
  assert (scrub (TryOnResult.dict (pending e1 r1))
          = scrub (TryOnResult.dict (pending e2 r2))) as Hp
    by (apply scrub_dict; simpl; congruence).
  simpl. rewrite Hr, Ha.
  destruct (job_result e2 r2) as [img fb|error]; simpl;
    unfold scrub_db, Mongo.insert_one; simpl;
    rewrite !fmap_app; simpl; rewrite !fmap_app; simpl; rewrite Hp.
  - assert (scrub (TryOnResult.dict (completed e1 r1 img fb))
            = scrub (TryOnResult.dict (completed e2 r2 img fb))) as ->
      by (apply scrub_dict; simpl; congruence).
    done.
  - assert (scrub (TryOnResult.dict
                     (TryOnResult.set_status "failed" (pending e1 r1)))
            = scrub (TryOnResult.dict
                       (TryOnResult.set_status "failed" (pending e2 r2))))
      as -> by (apply scrub_dict; simpl; congruence).
    done.
Qed.

End Properties.

(** ** The claims at the scenario *)

(** The scenario is a run of the service: a successful submit, then a
    submit whose job returns no image. *)
Lemma scenario_reachable :
  reachable Scenario.decoder Scenario.after_empty.
Proof.
  apply (reachable_step Scenario.decoder
           (GenerateTryon Scenario.env_empty Scenario.request)
           Scenario.after_ok).
  - apply (reachable_step Scenario.decoder
             (GenerateTryon Scenario.env_ok Scenario.request) init).
    + apply reachable_init.
    + intros _. reflexivity.
  - intros _. reflexivity.
Defined.





Lemma status_lifecycle_witness :
  let h := status_of "3f2c9a1e-0002" <$> journal Scenario.after_empty in
  lifecycle None h = true
  /\ forall (i j : nat) s,
       (i <= j)%nat -> h !! i = Some (Some (VStr s)) -> s <> "processing" ->
       (j < length h)%nat -> h !! j = Some (Some (VStr s)).
Proof.
  apply (status_lifecycle Scenario.decoder Scenario.after_empty
           "3f2c9a1e-0002").
  apply scenario_reachable.
Defined.


Lemma artifact_access_witness :
  (Mongo.find_one "3f2c9a1e-0002" (tryon_results (db Scenario.after_empty))
   = None ->
   exists err,
     get_tryon_image_base64 "3f2c9a1e-0002" Scenario.after_empty = Raise err
     /\ NotFoundError err)
  /\ (forall d,
        Mongo.find_one "3f2c9a1e-0002"
          (tryon_results (db Scenario.after_empty)) = Some d ->
        d !! "status" <> Some (VStr "completed") ->
        exists err,
          get_tryon_image_base64 "3f2c9a1e-0002" Scenario.after_empty
          = Raise err
          /\ ArtifactUnavailableError err)
  /\ (forall body,
        get_tryon_image_base64 "3f2c9a1e-0002" Scenario.after_empty
        = Return body ->
        exists d,
          Mongo.find_one "3f2c9a1e-0002"
            (tryon_results (db Scenario.after_empty)) = Some d
          /\ has_artifact d
          /\ body !! "image_base64" = d !! "tryon_image").
Proof.
  apply (artifact_access Scenario.decoder Scenario.after_empty
           "3f2c9a1e-0002").
  apply scenario_reachable.
Defined.

Lemma list_newest_first_witness :
  exists rs,
    get_all_tryons (fun _ => mkFactory "00000000-0000" 0) Scenario.after_empty
    = Return rs
    /\ (length rs <= 100)%nat
    /\ length rs
       = (100 `min` length (tryon_results (db Scenario.after_empty)))%nat
    /\ StronglySorted newest_first rs
    /\ exists docs,
         docs ≡ₚ tryon_results (db Scenario.after_empty)
         /\ TryOnResult.dict <$> rs = take 100 docs.
Proof.
  apply (list_newest_first Scenario.decoder
           (fun _ => mkFactory "00000000-0000" 0) Scenario.after_empty).
  apply scenario_reachable.
Defined.

Lemma get_after_submit_witness :
  exists x r,
    success_body
      (completed Scenario.env_ok Scenario.request
         "https://fal.media/files/out.png"
         "Virtual try-on generated successfully for casual style!")
    !! "id" = Some (VStr x)
    /\ get_tryon_result (mkFactory "00000000-0000" 0) x Scenario.after_ok
       = Return r
    /\ TryOnResult.id r = x
    /\ TryOnResult.name r = TryOnRequest.name Scenario.request
    /\ TryOnResult.measurements r
       = Measurements.dict (TryOnRequest.measurements Scenario.request)
    /\ TryOnResult.style r = TryOnRequest.style Scenario.request.
Proof.
  apply (get_after_submit Scenario.decoder Scenario.env_ok Scenario.request
           init (mkFactory "00000000-0000" 0) Scenario.after_ok).
  reflexivity.
Defined.

(** C9, the counterexample to the claim as stated: after the successful
    submit of the scenario, the body returned is not the stored record;
    it has no name (nor measurements, style, creation time), which the
    stored record has. *)
Lemma submit_returns_record_counterexample :
  exists body d,
    generate_tryon Scenario.decoder Scenario.env_ok Scenario.request init
    = (Scenario.after_ok, Return body)
    /\ Mongo.find_one "3f2c9a1e-0001" (tryon_results (db Scenario.after_ok))
       = Some d
    /\ d !! "name" = Some (VStr "Test User")
    /\ body !! "name" = None
    /\ ~ returns_stored_record body d.
Proof.
  eexists _, _. split; [reflexivity|]. split; [reflexivity|].
  split; [reflexivity|]. split; [reflexivity|].
  intros H. specialize (H "name"). discriminate H. set_solver.
Qed.

Lemma submit_returns_summary_witness :
  exists d,
    Mongo.find_one "3f2c9a1e-0001" (tryon_results (db Scenario.after_ok))
    = Some d
    /\ last (journal Scenario.after_ok) = Some (db Scenario.after_ok)
    /\ d !! "status" = Some (VStr "completed")
    /\ success_body
         (completed Scenario.env_ok Scenario.request
            "https://fal.media/files/out.png"
            "Virtual try-on generated successfully for casual style!")
       !! "success" = Some (VBool true)
    /\ (forall k,
          k ∈ ["id"; "tryon_image"; "feedback"; "status"] ->
          success_body
            (completed Scenario.env_ok Scenario.request
               "https://fal.media/files/out.png"
               "Virtual try-on generated successfully for casual style!")
          !! k = d !! k)
    /\ (forall k,
          k ∉ ["success"; "id"; "tryon_image"; "feedback"; "status"] ->
          success_body
            (completed Scenario.env_ok Scenario.request
               "https://fal.media/files/out.png"
               "Virtual try-on generated successfully for casual style!")
          !! k = None).
Proof.
  apply (submit_returns_summary Scenario.decoder Scenario.env_ok
           Scenario.request init Scenario.after_ok).
  reflexivity.
Defined.

Lemma payloads_not_forwarded_witness :
  let w1 := (generate_tryon Scenario.decoder Scenario.env_ok
               Scenario.request init).1 in
  let w2 := (generate_tryon Scenario.decoder Scenario.env_ok'
               Scenario.request' init).1 in
  fal_log w1 = fal_log w2
  /\ scrub_db <$> journal w1 = scrub_db <$> journal w2
  /\ scrub_db (db w1) = scrub_db (db w2).
Proof.
  apply (payloads_not_forwarded Scenario.decoder Scenario.env_ok
           Scenario.env_ok' Scenario.request Scenario.request' init).
  - reflexivity.
  - intros app a. reflexivity.
  - reflexivity.
  - reflexivity.
  - reflexivity.
  - exists tt. reflexivity.
  - exists tt. reflexivity.
  - exists tt. reflexivity.
  - exists tt. reflexivity.
  - reflexivity.
  - reflexivity.
Defined.

(** * Part III: further properties of the code *)

(** ** The image helpers *)

Lemma prefix_app a p x :
  String.prefix a p = true -> String.prefix a (p +:+ x) = true.
Proof.
  revert a. induction p as [|c' p IH]; intros [|c a]; simpl; try done.
  - intros _. by destruct x.
  - destruct (ascii_dec c c'); [apply IH|done].
Qed.

Lemma split_no_sep c s : has_char c s = false -> PyStr.split c s = [s].
Proof.
  induction s as [|a s IH]; simpl; [done|].
  intros [Ha Hs]%orb_false_elim. by rewrite Ha, (IH Hs).
Qed.

Lemma split_app c p s :
  has_char c p = false ->
  PyStr.split c (p +:+ String c s) = p :: PyStr.split c s.
Proof.
  induction p as [|a p IH]; simpl.
  - intros _. by rewrite Ascii.eqb_refl.
  - intros [Ha Hp]%orb_false_elim. by rewrite Ha, (IH Hp).
Qed.

(** The second piece of a split, when the first two hold no
    separator. *)
Lemma split_second c p q :
  has_char c p = false -> has_char c q = false ->
  PyStr.split c (p +:+ String c q) !! 1%nat = Some q
  /\ forall r,
       PyStr.split c (p +:+ String c (q +:+ String c r)) !! 1%nat = Some q.
Proof.
  intros Hp Hq. split; [|intros r].
  - by rewrite (split_app _ _ _ Hp), (split_no_sep _ _ Hq).
  - by rewrite (split_app _ _ _ Hp), (split_app _ _ _ Hq).
Qed.

Section Images.

Context {image : Type} (open_image : string -> option image).

(** X1. A data URL whose header and payload hold no comma is decoded
    from its payload alone: the header is dropped, and so is whatever
    follows a second comma. *)
Theorem data_url_payload p q :
  PyStr.startswith "data:image" p = true ->
  has_char "," p = false -> has_char "," q = false ->
  base64_to_pil open_image (p +:+ "," +:+ q) = open_image q
  /\ forall r,
       base64_to_pil open_image (p +:+ "," +:+ q +:+ "," +:+ r)
       = open_image q.
Proof.
  intros Hp Hcp Hcq. unfold base64_to_pil, PyStr.startswith in *.
  destruct (split_second "," p q Hcp Hcq) as [H1 H2].
  split; [|intros r]; rewrite (prefix_app _ _ _ Hp).
  - change ("," +:+ q) with (String "," q). by rewrite H1.
  - change ("," +:+ q +:+ "," +:+ r) with (String "," (q +:+ String "," r)).
    by rewrite H2.
Qed.

(** X2. A payload that starts with [data:image] and holds no comma is
    never handed to the decoder: the index error is caught and the
    result is [None], whatever the decoder accepts. *)
Theorem data_url_without_comma s :
  PyStr.startswith "data:image" s = true -> has_char "," s = false ->
  base64_to_pil open_image s = None.
Proof.
  intros Hs Hc. unfold base64_to_pil. by rewrite Hs, (split_no_sep _ _ Hc).
Qed.

(** X3. [pil_to_base64] then [base64_to_pil] gives the image back,
    and the data URL in between passes the presence check, as soon as
    the base64 text holds no comma and the decoder inverts the PNG
    encoder on it. *)
Theorem pil_round_trip (png_base64 : image -> option string) img s :
  png_base64 img = Some s -> has_char "," s = false ->
  open_image s = Some img ->
  exists url,
    pil_to_base64 png_base64 img = Some url
    /\ PyStr.truthy url = true
    /\ base64_to_pil open_image url = Some img.
Proof.
  intros He Hc Hd. unfold pil_to_base64. rewrite He.
  eexists. split; [done|]. split; [done|].
  destruct (split_second "," "data:image/png;base64" s eq_refl Hc) as [H _].
  change ("data:image/png;base64," +:+ s)
    with ("data:image/png;base64" +:+ String "," s).
  unfold base64_to_pil, PyStr.startswith.
  by rewrite (prefix_app "data:image" "data:image/png;base64" _ eq_refl), H.
Qed.

(** X4. What the test script builds with [create_sample_image_base64]
    is the data URL of the base64 text of a fresh image: it passes the
    presence check of the server, and the server decodes that base64
    text when it holds no comma. *)
Theorem sample_image_decoded (png_base64 : image -> option string)
    (new_rgb : string -> nat * nat -> option image) color size url :
  create_sample_image_base64 png_base64 new_rgb color size = Some url ->
  exists img s,
    new_rgb color size = Some img /\ png_base64 img = Some s
    /\ url = "data:image/png;base64," +:+ s
    /\ PyStr.truthy url = true
    /\ (has_char "," s = false ->
        base64_to_pil open_image url = open_image s).
Proof.
  unfold create_sample_image_base64.
  destruct (new_rgb color size) as [img|] eqn:Hn; [|done].
  destruct (png_base64 img) as [s|] eqn:He; [|done].
  intros [= <-]. exists img, s.
  split; [done|]. split; [done|]. split; [done|]. split; [done|].
  intros Hc.
  destruct (split_second "," "data:image/png;base64" s eq_refl Hc) as [H _].
  change ("data:image/png;base64," +:+ s)
    with ("data:image/png;base64" +:+ String "," s).
  unfold base64_to_pil, PyStr.startswith.
  by rewrite (prefix_app "data:image" "data:image/png;base64" _ eq_refl), H.
Qed.

End Images.

(** ** Submitting *)

Section Submitting.

Context {image : Type} (open_image : string -> option image).

Lemma generate_tryon_valid_outcome e request w :
  valid request = true ->
  (exists body, (generate_tryon open_image e request w).2 = Return body)
  \/ (exists text,
        (generate_tryon open_image e request w).2
        = Raise (mkHTTPException 500 text)).
Proof.
  intros Hv. rewrite (generate_tryon_valid open_image e request w Hv).
  destruct (generate_virtual_tryon _ _ _ _ _ _ _ _) as [w2 [img fb|error]];
    simpl; eauto.
Qed.

(** X5. The verdict of the presence checks of [generate_tryon]: an
    empty user image is reported first, whatever the other fields; then
    an empty clothing image; and with both images present the call is
    refused with "Name is required" exactly when the name is made of
    white space only (the empty name among them). *)
Theorem validation_verdict e request w :
  (TryOnRequest.user_image request = "" ->
   generate_tryon open_image e request w
   = (w, Raise (mkHTTPException 400 "User image is required")))
  /\ (TryOnRequest.user_image request <> "" ->
      TryOnRequest.clothing_image request = "" ->
      generate_tryon open_image e request w
      = (w, Raise (mkHTTPException 400 "Clothing image is required")))
  /\ (TryOnRequest.user_image request <> "" ->
      TryOnRequest.clothing_image request <> "" ->
      generate_tryon open_image e request w
      = (w, Raise (mkHTTPException 400 "Name is required"))
      <-> PyStr.all_space (TryOnRequest.name request) = true).
Proof.
  split_and!.
  - intros H. unfold generate_tryon. by rewrite H.
  - intros Hu Hc. unfold generate_tryon. rewrite Hc.
    by destruct (TryOnRequest.user_image request).
  - intros Hu Hc. rewrite <- strip_empty_iff, <- PyStr_truthy_false.
    assert (PyStr.truthy (TryOnRequest.user_image request) = true) as Hu'
      by (by destruct (TryOnRequest.user_image request)).
    assert (PyStr.truthy (TryOnRequest.clothing_image request) = true) as Hc'
      by (by destruct (TryOnRequest.clothing_image request)).
    split.
    + intros Hg.
      destruct (PyStr.truthy (PyStr.strip (TryOnRequest.name request)))
        eqn:Hn; [|done].
      assert (valid request = true) as Hv
        by (unfold valid; by rewrite Hu', Hc', Hn).
      destruct (generate_tryon_valid_outcome e request w Hv)
        as [[body Hb]|[text Hb]]; rewrite Hg in Hb; done.
    + intros Hn. unfold generate_tryon. by rewrite Hu', Hc', Hn.
Qed.

(** The world after a call of [generate_virtual_tryon]: one job more
    in the log when both payloads decode, the same world otherwise. *)
Lemma generate_virtual_tryon_log e request w :
  (generate_virtual_tryon open_image e
     (TryOnRequest.user_image request) (TryOnRequest.clothing_image request)
     (TryOnRequest.measurements request) (TryOnRequest.style request)
     (TryOnRequest.name request) w).1
  = if bool_decide
         (is_Some (base64_to_pil open_image (TryOnRequest.user_image request)))
       && bool_decide
            (is_Some (base64_to_pil open_image
                        (TryOnRequest.clothing_image request)))
    then submit_async "fal-ai/flux/dev" (job_arguments request) w
    else w.
Proof.
  unfold generate_virtual_tryon. fold (job_arguments request).
  destruct (bool_decide (is_Some (base64_to_pil open_image
                                    (TryOnRequest.user_image request))));
    destruct (bool_decide (is_Some (base64_to_pil open_image
                                      (TryOnRequest.clothing_image request))));
    simpl; try done.
  destruct (fal_client e _ _) as [msg|[|[[|first rest]|]]]; try done.
  by destruct (first !! "url").
Qed.

(** X6. A payload that does not decode stops a submit before FAL.AI is
    called: the record is created and then marked [failed], no job is
    submitted, and the call fails with status 500 and the text
    "Failed to process uploaded images". *)
Theorem undecodable_image e request w :
  valid request = true ->
  base64_to_pil open_image (TryOnRequest.user_image request) = None
  \/ base64_to_pil open_image (TryOnRequest.clothing_image request) = None ->
  let out := generate_tryon open_image e request w in
  out.2 = Raise (mkHTTPException 500
                   "Failed to generate try-on: Failed to process uploaded images")
  /\ fal_log out.1 = fal_log w
  /\ status_of (uuid4 (factory e)) (db out.1) = Some (VStr "failed").
Proof.
  intros Hv Hd out. subst out.
  rewrite (generate_tryon_valid open_image e request w Hv).
  assert (generate_virtual_tryon open_image e
            (TryOnRequest.user_image request)
            (TryOnRequest.clothing_image request)
            (TryOnRequest.measurements request) (TryOnRequest.style request)
            (TryOnRequest.name request)
            (tryon_insert_one (TryOnResult.dict (pending e request)) w)
          = (tryon_insert_one (TryOnResult.dict (pending e request)) w,
             GenFailure "Failed to process uploaded images")) as ->.
  { unfold generate_virtual_tryon.
    destruct Hd as [-> | ->]; simpl; [done|].
    by rewrite orb_true_r. }
  simpl. split; [done|]. split; [done|].
  destruct (find_one_inserted (tryon_results (db w)) (pending e request))
    as [d Hd']. simpl in Hd'.
  unfold status_of. simpl. unfold Mongo.insert_one.
  rewrite (find_one_update_one_gen _ _ _ d); [|by rewrite
    matches_set_fields_frame; [eapply find_one_matches|]|done].
  simpl. by apply set_fields_written.
Qed.

(** X7. A submit call reaches FAL.AI at most once, with no retry: the
    log of submitted jobs grows by the one job built from the request
    (application [fal-ai/flux/dev], portrait size, 28 steps, guidance
    3.5, one image) when the request passes the checks and both
    payloads decode, and is unchanged otherwise. *)
Theorem at_most_one_job e request w :
  fal_log (generate_tryon open_image e request w).1
  = fal_log w
    ++ (if valid request
           && bool_decide
                (is_Some (base64_to_pil open_image
                            (TryOnRequest.user_image request)))
           && bool_decide
                (is_Some (base64_to_pil open_image
                            (TryOnRequest.clothing_image request)))
        then [("fal-ai/flux/dev",
               {| prompt := tryon_prompt (TryOnRequest.measurements request)
                              (TryOnRequest.style request);
                  image_size := "portrait";
                  num_inference_steps := 28;
                  guidance_scale := (7 # 2)%Q;
                  num_images := 1 |})]
        else []).
Proof.
  destruct (valid request) eqn:Hv; simpl.
  - rewrite (generate_tryon_valid open_image e request w Hv).
    pose proof (generate_virtual_tryon_log e request
                  (tryon_insert_one (TryOnResult.dict (pending e request)) w))
      as Hlog.
    destruct (generate_virtual_tryon _ _ _ _ _ _ _ _) as [w2 g].
    simpl in Hlog. subst w2.
    destruct (_ && _); destruct g; simpl; by rewrite ?(right_id_L [] (++)).
  - destruct (generate_tryon_invalid open_image e request w Hv)
      as (msg & -> & _). simpl. by rewrite (right_id_L [] (++)).
Qed.

(** X8. A submit call that passes the checks writes exactly twice: the
    first write adds one record to the try-on collection, the second
    keeps the number of records, and neither touches the status
    checks. When the id drawn is fresh, the records stored before are
    left as they were, key for key. *)
Theorem submit_two_writes e request w :
  valid request = true ->
  let w' := (generate_tryon open_image e request w).1 in
  exists d1 d2,
    journal w' = journal w ++ [d1; d2] /\ db w' = d2
    /\ length (tryon_results d1) = S (length (tryon_results (db w)))
    /\ length (tryon_results d2) = S (length (tryon_results (db w)))
    /\ status_checks d1 = status_checks (db w)
    /\ status_checks d2 = status_checks (db w)
    /\ (fresh_id e w ->
        take (length (tryon_results (db w))) (tryon_results d1)
        = tryon_results (db w)
        /\ take (length (tryon_results (db w))) (tryon_results d2)
           = tryon_results (db w)).
Proof.
  intros Hv w'. subst w'.
  pose proof (generate_tryon_writes open_image e request w Hv) as Hfresh.
  cbv zeta in Hfresh.
  rewrite (generate_tryon_valid open_image e request w Hv) in Hfresh |- *.
  pose proof (generate_virtual_tryon_world open_image e
    (TryOnRequest.user_image request) (TryOnRequest.clothing_image request)
    (TryOnRequest.measurements request) (TryOnRequest.style request)
    (TryOnRequest.name request)
    (tryon_insert_one (TryOnResult.dict (pending e request)) w)) as [Hdb Hj].
  destruct (generate_virtual_tryon _ _ _ _ _ _ _ _) as [w2 g].
  simpl in Hdb, Hj.
  destruct g as [img fb|error]; simpl in Hfresh |- *;
    rewrite Hj, Hdb in Hfresh |- *; simpl in Hfresh |- *;
    (eexists _, _; split; [by rewrite <- (assoc_L (++))|]);
    (split; [done|]); simpl;
    rewrite update_one_length; unfold Mongo.insert_one in *;
    rewrite length_app; simpl;
    (split_and!; [lia|lia|done|done|]);
    intros Hf; destruct (Hfresh Hf) as (rf & _ & [= ->] & _);
    by rewrite !take_app_length.
Qed.

End Submitting.

(** ** The status checks *)

Lemma status_parse_dict f r :
  StatusCheck.parse f (StatusCheck.dict r) = Some r.
Proof. by destruct r. Qed.

Lemma parse_status_checks_dict fs i rs :
  parse_status_checks fs i (StatusCheck.dict <$> rs) = Some rs.
Proof.
  revert i. induction rs as [|r rs IH]; intros i; [done|].
  simpl. by rewrite status_parse_dict, IH.
Qed.

Section StatusChecks.

Context {image : Type} (open_image : string -> option image).

(** The status checks of a reachable world are dumps of records. *)
Lemma reachable_status_checks w :
  reachable open_image w ->
  exists rs, status_checks (db w) = StatusCheck.dict <$> rs.
Proof.
  induction 1 as [|o w Hr (rs & IH) Hf]; [by exists []|].
  destruct o; simpl; try (by exists rs).
  - exists (rs ++ [StatusCheck.create f client_name]).
    unfold Mongo.insert_one. by rewrite IH, fmap_app.
  - destruct (valid request) eqn:Hv.
    + destruct (generate_tryon_writes open_image e request w Hv (Hf Hv))
        as (rf & _ & -> & _). by exists rs.
    + destruct (generate_tryon_invalid open_image e request w Hv)
        as (msg & -> & _). by exists rs.
Qed.

(** X9. In every world that the service reaches, [get_status_checks]
    never fails: it returns the records of the first thousand stored
    status checks, in the order of their creation. *)
Theorem status_checks_listed fs w :
  reachable open_image w ->
  exists rs,
    get_status_checks fs w = Return rs
    /\ StatusCheck.dict <$> rs = take 1000 (status_checks (db w))
    /\ (length rs <= 1000)%nat.
Proof.
  intros Hr. destruct (reachable_status_checks w Hr) as (rs & Hrs).
  exists (take 1000 rs). unfold get_status_checks, Mongo.to_list.
  rewrite Hrs, <- fmap_take, parse_status_checks_dict.
  split_and!; [done|done|]. rewrite length_take. lia.
Qed.


End StatusChecks.

(** ** Reading the try-on records *)

Lemma parse_results_dict fs i rs :
  parse_results fs i (TryOnResult.dict <$> rs) = Some rs.
Proof.
  revert i. induction rs as [|r rs IH]; intros i; [done|].
  simpl. by rewrite parse_dict, IH.
Qed.

Lemma dumped_records docs :
  Forall dumped docs -> exists rs, docs = TryOnResult.dict <$> rs.
Proof.
  induction 1 as [|d docs (r & -> & _) _ (rs & ->)]; [by exists []|].
  by exists (r :: rs).
Qed.

(** A document without a name is refused by the constructor. *)
Lemma parse_without_name f (d : doc) :
  d !! "name" = None -> TryOnResult.parse f d = None.
Proof.
  intros H. unfold TryOnResult.parse. rewrite H.
  destruct (Field.str_or (uuid4 f) _); reflexivity.
Qed.

Lemma parse_results_refused fs i docs (d : doc) :
  d ∈ docs -> (forall f, TryOnResult.parse f d = None) ->
  parse_results fs i docs = None.
Proof.
  intros Hd Hp. revert i.
  induction Hd as [d docs|d d' docs Hd IH]; intros i; simpl.
  - by rewrite Hp.
  - rewrite IH by done. by destruct (TryOnResult.parse _ d').
Qed.

Section Reading.

Context {image : Type} (open_image : string -> option image).

(** X11. In every world that the service reaches, [get_tryon_result]
    has two outcomes only: [NotFoundError] when no record has the id,
    or the record stored under the id, whose id is the one asked for.
    It never fails with status 500. *)
Theorem get_found_or_not f x w :
  reachable open_image w ->
  (Mongo.find_one x (tryon_results (db w)) = None
   /\ exists err, get_tryon_result f x w = Raise err /\ NotFoundError err)
  \/ (exists r,
        Mongo.find_one x (tryon_results (db w)) = Some (TryOnResult.dict r)
        /\ get_tryon_result f x w = Return r
        /\ TryOnResult.id r = x).
Proof.
  intros Hr. destruct (reachable_ok open_image w Hr) as (Hdb & _ & _).
  unfold get_tryon_result.
  destruct (Mongo.find_one x (tryon_results (db w))) as [d|] eqn:Hd.
  - right. unfold db_ok in Hdb. rewrite Forall_forall in Hdb.
    destruct (Hdb d (find_one_elem _ _ _ Hd)) as (r & -> & _).
    exists r. rewrite parse_dict. split_and!; [done|done|].
    apply find_one_matches in Hd. rewrite matches_dict in Hd.
    by apply bool_decide_eq_true_1 in Hd.
  - left. split; [done|]. by eexists.
Qed.



(** X14. In every world that the service reaches, the cap of
    [get_all_tryons] drops the oldest records only: the records
    returned and the records left out make up the stored collection,
    no record left out is newer than a record returned, and nothing is
    left out as long as at most a hundred records are stored. *)
Theorem list_drops_oldest fs w rs :
  reachable open_image w ->
  get_all_tryons fs w = Return rs ->
  exists older,
    TryOnResult.dict <$> (rs ++ older) ≡ₚ tryon_results (db w)
    /\ (forall r o,
          r ∈ rs -> o ∈ older ->
          TryOnResult.created_at o <= TryOnResult.created_at r)
    /\ ((length (tryon_results (db w)) <= 100)%nat -> older = []).
Proof.
  intros Hr. destruct (reachable_ok open_image w Hr) as (Hdb & _ & _).
  unfold get_all_tryons, Mongo.to_list, Mongo.sort_created_at_desc.
  pose proof (merge_sort_Permutation Mongo.newer_first
                (tryon_results (db w))) as Hperm.
  pose proof (StronglySorted_merge_sort Mongo.newer_first
                (tryon_results (db w))) as Hsort.
  destruct (dumped_records (merge_sort Mongo.newer_first
                              (tryon_results (db w)))) as (all & Hall).
  { unfold db_ok in Hdb. by rewrite Hperm. }
  rewrite Hall in Hperm, Hsort |- *.
  rewrite <- fmap_take, parse_results_dict. intros [= <-].
  exists (drop 100 all). rewrite take_drop. split_and!; [done| |].
  - intros r o Hin Ho. apply newest_first_of_docs in Hsort.
    rewrite <- (take_drop 100 all) in Hsort.
    apply (StronglySorted_app_1_elem_of _ _ _ r o Hsort Hin Ho).
  - intros Hlen. apply drop_ge.
    by rewrite <- (length_fmap TryOnResult.dict), Hperm.
Qed.

(** X15. A stored document without a name makes the readers fail with
    status 500 ("Internal server error"): [get_tryon_result] on its
    id, and the whole of [get_all_tryons] once the document is among
    the at most hundred listed. *)
Theorem malformed_document f fs x w (d : doc) :
  d !! "name" = None ->
  (Mongo.find_one x (tryon_results (db w)) = Some d ->
   exists err, get_tryon_result f x w = Raise err /\ InternalServerError err)
  /\ (d ∈ tryon_results (db w) ->
      (length (tryon_results (db w)) <= 100)%nat ->
      exists err, get_all_tryons fs w = Raise err /\ InternalServerError err).
Proof.
  intros Hn. split.
  - intros Hd. unfold get_tryon_result.
    rewrite Hd, (parse_without_name f d Hn). by eexists.
  - intros Hd Hlen.
    unfold get_all_tryons, Mongo.to_list, Mongo.sort_created_at_desc.
    pose proof (merge_sort_Permutation Mongo.newer_first
                  (tryon_results (db w))) as Hperm.
    rewrite take_ge by (by rewrite Hperm).
    rewrite (parse_results_refused fs 0 _ d).
    + by eexists.
    + by rewrite Hperm.
    + intros f'. by apply parse_without_name.
Qed.

End Reading.

(** ** The stored models *)



(** X18. The dictionary stored for the measurements determines the
    five measurements: two requests with the same stored measurements
    have the same height, weight, chest, waist and hips. *)
Theorem measurements_dict_inj m m' :
  Measurements.dict m = Measurements.dict m' -> m = m'.
Proof.
  intros H. destruct m as [h w c a p], m' as [h' w' c' a' p'].
  assert (Some h = Some h') as [= ->]
    by exact (f_equal (.!! "height") H).
  assert (Some w = Some w') as [= ->]
    by exact (f_equal (.!! "weight") H).
  assert (Some c = Some c') as [= ->]
    by exact (f_equal (.!! "chest") H).
  assert (Some a = Some a') as [= ->]
    by exact (f_equal (.!! "waist") H).
  assert (Some p = Some p') as [= ->]
    by exact (f_equal (.!! "hips") H).
  done.
Qed.

(** ** What the writes keep *)

Lemma kept_refl d : kept d d.
Proof. intros k record Hk. eauto. Qed.

Lemma kept_trans d1 d2 d3 : kept d1 d2 -> kept d2 d3 -> kept d1 d3.
Proof.
  intros H12 H23 k r1 Hk.
  destruct (H12 k r1 Hk) as (r2 & Hk2 & He2).
  destruct (H23 k r2 Hk2) as (r3 & Hk3 & He3).
  exists r3. split; [done|]. intros key Hkey.
  by rewrite He3, He2.
Qed.

Lemma ordered_kept_snoc h d :
  ordered_kept h -> (forall d0, last h = Some d0 -> kept d0 d) ->
  ordered_kept (h ++ [d]).
Proof.
  intros Hh Hlast i j di dj Hij Hi Hj.
  destruct (decide (j < length h)%nat) as [Hlt|Hge].
  - rewrite lookup_app_l in Hi, Hj by lia. by apply (Hh i j).
  - assert (j = length h) as ->.
    { apply lookup_lt_Some in Hj. rewrite length_app in Hj. simpl in Hj.
      lia. }
    rewrite list_lookup_middle in Hj by done. injection Hj as <-.
    destruct (decide (i = length h)) as [->|Hne].
    + rewrite list_lookup_middle in Hi by done. injection Hi as <-.
      apply kept_refl.
    + rewrite lookup_app_l in Hi by lia.
      destruct (last h) as [d0|] eqn:Hl.
      * apply (kept_trans _ d0); [|by apply Hlast].
        rewrite last_lookup in Hl.
        apply (Hh i (Nat.pred (length h))); [lia|done|done].
      * apply last_None in Hl. by subst h.
Qed.

Lemma find_one_None_ids x c :
  Mongo.find_one x c = None -> Some (VStr x) ∉ (.!! "id") <$> c.
Proof.
  unfold Mongo.find_one. induction c as [|d c IH].
  - intros _. apply not_elem_of_nil.
  - rewrite fmap_cons, not_elem_of_cons. simpl.
    destruct (Mongo.matches x d) eqn:Hm; [done|]. intros Hc.
    split; [|by apply IH].
    unfold Mongo.matches in Hm. apply bool_decide_eq_false_1 in Hm.
    congruence.
Qed.

Section Keeping.

Context {image : Type} (open_image : string -> option image).

Lemma kept_inserted c sc r :
  kept {| tryon_results := c; status_checks := sc |}
       {| tryon_results := c ++ [TryOnResult.dict r]; status_checks := sc |}.
Proof.
  intros k record Hk. simpl in *. exists record.
  split; [by apply lookup_app_l_Some|done].
Qed.

Lemma kept_final c sc e request rf :
  rf = TryOnResult.set_status "failed" (pending e request)
  \/ (exists img fb, rf = completed e request img fb) ->
  kept {| tryon_results := c ++ [TryOnResult.dict (pending e request)];
          status_checks := sc |}
       {| tryon_results := c ++ [TryOnResult.dict rf]; status_checks := sc |}.
Proof.
  intros Hrf k record Hk. simpl in *.
  destruct (decide (k < length c)%nat) as [Hlt|Hge].
  - rewrite lookup_app_l in Hk |- * by done. eauto.
  - assert (k = length c) as ->.
    { apply lookup_lt_Some in Hk. rewrite length_app in Hk. simpl in Hk.
      lia. }
    rewrite list_lookup_middle in Hk |- * by done. injection Hk as <-.
    eexists. split; [done|]. intros key Hkey. unfold immutable_keys in Hkey.
    repeat (apply elem_of_cons in Hkey as [->|Hkey]);
      [..|by apply elem_of_nil in Hkey];
      by destruct Hrf as [->|(img & fb & ->)].
Qed.

(** X19. In every world that the service reaches, no write deletes,
    moves or renames a try-on record: a record stored after some write
    is still stored, at the same place, after every later write, with
    the same id, name, image urls, measurements, style and creation
    time. *)
Theorem records_kept w (i j : nat) di dj :
  reachable open_image w ->
  (i <= j)%nat -> journal w !! i = Some di -> journal w !! j = Some dj ->
  kept di dj.
Proof.
  intros Hr. revert i j di dj. change (ordered_kept (journal w)).
  induction Hr as [|o w Hr IH Hf].
  - intros i j di dj _ Hi. done.
  - pose proof (reachable_ok open_image w Hr) as (_ & _ & Hs).
    assert (forall d0, last (journal w) = Some d0 -> d0 = db w) as Hlast.
    { intros d0 Hl. unfold in_sync in Hs. by rewrite Hl in Hs. }
    destruct o; simpl; try done.
    + apply ordered_kept_snoc; [done|]. intros d0 ->%Hlast.
      intros k record Hk. simpl. eauto.
    + destruct (valid request) eqn:Hv.
      * destruct (generate_tryon_writes open_image e request w Hv (Hf Hv))
          as (rf & Hrf & _ & ->).
        change (journal w ++ [?a; ?b]) with (journal w ++ [a] ++ [b]).
        rewrite (assoc_L (++)).
        apply ordered_kept_snoc; [apply ordered_kept_snoc; [done|]|].
        -- intros d0 ->%Hlast. destruct (db w) as [c sc].
           apply kept_inserted.
        -- intros d0. rewrite last_snoc. intros [= <-].
           by apply kept_final.
      * destruct (generate_tryon_invalid open_image e request w Hv)
          as (msg & -> & _). done.
Qed.

(** X20. In every world that the service reaches, the ids of the
    stored try-on records are pairwise distinct: the record that a
    reader finds under an id is the only one with that id. *)
Theorem unique_ids w :
  reachable open_image w -> NoDup (stored_ids (db w)).
Proof.
  unfold stored_ids. induction 1 as [|o w Hr IH Hf]; [constructor|].
  destruct o; simpl; try done.
  destruct (valid request) eqn:Hv.
  - destruct (generate_tryon_writes open_image e request w Hv (Hf Hv))
      as (rf & Hrf & -> & _). simpl.
    rewrite fmap_app. apply NoDup_app. split; [done|]. split.
    + intros v Hv1 Hv2. simpl in Hv2. apply list_elem_of_singleton in Hv2.
      rewrite dict_lookup_id in Hv2. subst v.
      apply (find_one_None_ids _ _ (Hf Hv)).
      by destruct Hrf as [->|(img & fb & ->)].
    + apply NoDup_singleton.
  - destruct (generate_tryon_invalid open_image e request w Hv)
      as (msg & -> & _). done.
Qed.

End Keeping.

(** ** The generation and what it leaves *)

Section Generation.

Context {image : Type} (open_image : string -> option image).

(** X21. [generate_virtual_tryon] succeeds exactly when both payloads
    decode and the answer of the job holds a first image with a url;
    the success then carries that url and the feedback sentence of the
    style. *)
Theorem generation_succeeds_iff e request w url fb :
  (generate_virtual_tryon open_image e
     (TryOnRequest.user_image request) (TryOnRequest.clothing_image request)
     (TryOnRequest.measurements request) (TryOnRequest.style request)
     (TryOnRequest.name request) w).2 = GenSuccess url fb
  <-> is_Some (base64_to_pil open_image (TryOnRequest.user_image request))
      /\ is_Some (base64_to_pil open_image
                    (TryOnRequest.clothing_image request))
      /\ (exists first rest,
            fal_client e "fal-ai/flux/dev" (job_arguments request)
            = FalReturns (FalDict (Some (first :: rest)))
            /\ first !! "url" = Some url)
      /\ fb = "Virtual try-on generated successfully for "
              +:+ TryOnRequest.style request +:+ " style!".
Proof.
  split.
  - intros Hg.
    destruct (generate_virtual_tryon _ _ _ _ _ _ _ _) as [w' g] eqn:Heq.
    simpl in Hg. subst g.
    destruct (generate_virtual_tryon_success open_image _ _ _ _ _ _ Heq)
      as [Hfal Hfb].
    unfold generate_virtual_tryon in Heq.
    destruct (bool_decide (is_Some (base64_to_pil open_image
                                      (TryOnRequest.user_image request))))
      eqn:Hu; [|done].
    destruct (bool_decide (is_Some (base64_to_pil open_image
                                      (TryOnRequest.clothing_image request))))
      eqn:Hc; [|done].
    apply bool_decide_eq_true_1 in Hu, Hc. done.
  - intros (Hu & Hc & (first & rest & Hfal & Hurl) & ->).
    rewrite (generate_virtual_tryon_decoded open_image e request w Hu Hc).
    simpl. unfold job_result. by rewrite Hfal, Hurl.
Qed.




End Generation.

(** ** The further properties at the scenario *)

Lemma scenario_status_reachable :
  reachable Scenario.decoder Scenario2.after_status.
Proof.
  apply (reachable_step Scenario.decoder
           (CreateStatusCheck Scenario2.probe "test_client_101500")
           Scenario.after_empty).
  - apply scenario_reachable.
  - exact I.
Defined.

Lemma data_url_payload_witness :
  base64_to_pil Scenario.decoder ("data:image/png;base64" +:+ "," +:+ "iVBORw0KGgo=")
  = Scenario.decoder "iVBORw0KGgo="
  /\ forall r,
       base64_to_pil Scenario.decoder
         ("data:image/png;base64" +:+ "," +:+ "iVBORw0KGgo=" +:+ "," +:+ r)
       = Scenario.decoder "iVBORw0KGgo=".
Proof.
  apply (data_url_payload Scenario.decoder "data:image/png;base64"
           "iVBORw0KGgo="); reflexivity.
Defined.

Lemma data_url_without_comma_witness :
  base64_to_pil Scenario.decoder "data:image/png;base64" = None.
Proof.
  apply (data_url_without_comma Scenario.decoder "data:image/png;base64");
    reflexivity.
Defined.

Lemma pil_round_trip_witness :
  exists url,
    pil_to_base64 Scenario2.png_base64 tt = Some url
    /\ PyStr.truthy url = true
    /\ base64_to_pil Scenario.decoder url = Some tt.
Proof.
  apply (pil_round_trip Scenario.decoder Scenario2.png_base64 tt
           "iVBORw0KGgo="); reflexivity.
Defined.

Lemma sample_image_decoded_witness :
  exists img s,
    Scenario2.new_rgb "blue" (300%nat, 400%nat) = Some img
    /\ Scenario2.png_base64 img = Some s
    /\ "data:image/png;base64,iVBORw0KGgo=" = "data:image/png;base64," +:+ s
    /\ PyStr.truthy "data:image/png;base64,iVBORw0KGgo=" = true
    /\ (has_char "," s = false ->
        base64_to_pil Scenario.decoder "data:image/png;base64,iVBORw0KGgo="
        = Scenario.decoder s).
Proof.
  apply (sample_image_decoded Scenario.decoder Scenario2.png_base64
           Scenario2.new_rgb "blue" (300%nat, 400%nat)).
  reflexivity.
Defined.

Lemma undecodable_image_witness :
  let out := generate_tryon Scenario.decoder Scenario.env_ok
               Scenario2.request_bad_image init in
  out.2 = Raise (mkHTTPException 500
                   "Failed to generate try-on: Failed to process uploaded images")
  /\ fal_log out.1 = fal_log init
  /\ status_of (uuid4 (factory Scenario.env_ok)) (db out.1)
     = Some (VStr "failed").
Proof.
  apply (undecodable_image Scenario.decoder Scenario.env_ok
           Scenario2.request_bad_image init).
  - reflexivity.
  - left. reflexivity.
Defined.

Lemma submit_two_writes_witness :
  exists d1 d2,
    journal Scenario.after_ok = journal init ++ [d1; d2]
    /\ db Scenario.after_ok = d2
    /\ length (tryon_results d1) = S (length (tryon_results (db init)))
    /\ length (tryon_results d2) = S (length (tryon_results (db init)))
    /\ status_checks d1 = status_checks (db init)
    /\ status_checks d2 = status_checks (db init)
    /\ (fresh_id Scenario.env_ok init ->
        take (length (tryon_results (db init))) (tryon_results d1)
        = tryon_results (db init)
        /\ take (length (tryon_results (db init))) (tryon_results d2)
           = tryon_results (db init)).
Proof.
  apply (submit_two_writes Scenario.decoder Scenario.env_ok Scenario.request
           init).
  reflexivity.
Defined.

Lemma status_checks_listed_witness :
  exists rs,
    get_status_checks (fun _ => mkFactory "00000000-0000" 0)
      Scenario2.after_status = Return rs
    /\ StatusCheck.dict <$> rs
       = take 1000 (status_checks (db Scenario2.after_status))
    /\ (length rs <= 1000)%nat.
Proof.
  apply (status_checks_listed Scenario.decoder
           (fun _ => mkFactory "00000000-0000" 0) Scenario2.after_status).
  apply scenario_status_reachable.
Defined.


Lemma get_found_or_not_witness :
  (Mongo.find_one "nonexistent-id" (tryon_results (db Scenario.after_empty))
   = None
   /\ exists err,
        get_tryon_result (mkFactory "00000000-0000" 0) "nonexistent-id"
          Scenario.after_empty = Raise err
        /\ NotFoundError err)
  \/ (exists r,
        Mongo.find_one "nonexistent-id"
          (tryon_results (db Scenario.after_empty))
        = Some (TryOnResult.dict r)
        /\ get_tryon_result (mkFactory "00000000-0000" 0) "nonexistent-id"
             Scenario.after_empty = Return r
        /\ TryOnResult.id r = "nonexistent-id").
Proof.
  apply (get_found_or_not Scenario.decoder (mkFactory "00000000-0000" 0)
           "nonexistent-id" Scenario.after_empty).
  apply scenario_reachable.
Defined.



Lemma list_drops_oldest_witness :
  exists older,
    TryOnResult.dict
    <$> ([TryOnResult.set_status "failed"
            (pending Scenario.env_empty Scenario.request);
          completed Scenario.env_ok Scenario.request
            "https://fal.media/files/out.png"
            "Virtual try-on generated successfully for casual style!"]
         ++ older)
    ≡ₚ tryon_results (db Scenario.after_empty)
    /\ (forall r o,
          r ∈ [TryOnResult.set_status "failed"
                 (pending Scenario.env_empty Scenario.request);
               completed Scenario.env_ok Scenario.request
                 "https://fal.media/files/out.png"
                 "Virtual try-on generated successfully for casual style!"] ->
          o ∈ older ->
          TryOnResult.created_at o <= TryOnResult.created_at r)
    /\ ((length (tryon_results (db Scenario.after_empty)) <= 100)%nat ->
        older = []).
Proof.
  apply (list_drops_oldest Scenario.decoder
           (fun _ => mkFactory "00000000-0000" 0) Scenario.after_empty).
  - apply scenario_reachable.
  - reflexivity.
Defined.

Lemma malformed_document_witness :
  (Mongo.find_one "legacy" [ {[ "id" := VStr "legacy" ]} ]
   = Some {[ "id" := VStr "legacy" ]} ->
   exists err,
     get_tryon_result (mkFactory "00000000-0000" 0) "legacy"
       (mkWorld (mkDb [ {[ "id" := VStr "legacy" ]} ] []) [] [])
     = Raise err
     /\ InternalServerError err)
  /\ ({[ "id" := VStr "legacy" ]} ∈ [ ({[ "id" := VStr "legacy" ]} : doc) ] ->
      (length [ ({[ "id" := VStr "legacy" ]} : doc) ] <= 100)%nat ->
      exists err,
        get_all_tryons (fun _ => mkFactory "00000000-0000" 0)
          (mkWorld (mkDb [ {[ "id" := VStr "legacy" ]} ] []) [] [])
        = Raise err
        /\ InternalServerError err).
Proof.
  apply (malformed_document (mkFactory "00000000-0000" 0)
           (fun _ => mkFactory "00000000-0000" 0) "legacy"
           (mkWorld (mkDb [ {[ "id" := VStr "legacy" ]} ] []) [] [])
           {[ "id" := VStr "legacy" ]}).
  reflexivity.
Defined.

Lemma measurements_dict_inj_witness :
  Scenario.measurements = Measurements.make "170" "65" "90" "75" "95".
Proof.
  apply (measurements_dict_inj Scenario.measurements
           (Measurements.make "170" "65" "90" "75" "95")).
  reflexivity.
Defined.

Lemma records_kept_witness :
  kept (db Scenario.after_ok) (db Scenario.after_empty).
Proof.
  apply (records_kept Scenario.decoder Scenario.after_empty 1 3).
  - apply scenario_reachable.
  - lia.
  - reflexivity.
  - reflexivity.
Defined.

Lemma unique_ids_witness : NoDup (stored_ids (db Scenario.after_empty)).
Proof.
  apply (unique_ids Scenario.decoder Scenario.after_empty).
  apply scenario_reachable.
Defined.

